(** * Gold price bot: a shallow embedding of [src/index.js]

    The bot polls a price source, compares the fetched prices with the
    last snapshot kept in [./temp/data.json], notifies the subscribers
    listed in [./temp/users.json] over Telegram, and answers chat commands.

    The embedding follows the source function by function, as computations
    over an explicit [world] that may raise.  What lies outside the source
    is kept abstract or modelled once, in one place:

    - the file system: a file is missing, unreadable, unparsable or holds
      a JSON document ([file]).  The program is the only writer of its two
      files, so a document has the shape the program writes: an array of
      users, an object of two prices and a timestamp.  The outcome of the
      k-th [writeFileSync] is given by an oracle, and a failed write leaves
      the file as it was (writes replace a whole file);
    - the Telegram API: the outcome of the k-th [axios.post] is given by
      an oracle; every call is recorded in the [outbox];
    - the price source: one detection cycle receives the outcome of its
      [axios.post] as an argument ([response]);
    - [Intl] currency formatting, [Date] parsing and the digits that
      [toString] prints for an integer beyond the safe ones: parameters;
    - JavaScript numbers: binary64 floats ([PrimFloat]);
    - JavaScript strings: their UTF-8 bytes ([string]);
    - [console] output is not modelled;
    - a handler ([checkPriceChanges], [processUpdate]) runs to its end
      before another starts: interleavings at [await] are not modelled. *)

From Stdlib Require Import String Ascii List Bool ZArith Lia.
From Stdlib Require Import Floats DecimalString.
Import ListNotations.

Open Scope string_scope.

(* ================================================================== *)
(** * String primitives of the runtime *)

Definition utf8 (codes : list nat) : string :=
  string_of_list_ascii (map ascii_of_nat codes).

Definition nl : string := utf8 [10].

(** [s.startsWith(p)], also giving what follows the prefix. *)
Fixpoint strip_prefix (p s : string) : option string :=
  match p, s with
  | EmptyString, _ => Some s
  | String a p', String b s' =>
      if Ascii.eqb a b then strip_prefix p' s' else None
  | String _ _, EmptyString => None
  end.

Definition startsWith (s p : string) : bool :=
  match strip_prefix p s with Some _ => true | None => false end.

(** The code points ECMAScript counts as white space or line terminator,
    in UTF-8: TAB LF VT FF CR SP, U+00A0, U+1680, U+2000..U+200A, U+2028,
    U+2029, U+202F, U+205F, U+3000, U+FEFF. *)
Definition white_space : list string :=
  map utf8
    [ [9]; [10]; [11]; [12]; [13]; [32]; [194; 160]; [225; 154; 128];
      [226; 128; 128]; [226; 128; 129]; [226; 128; 130]; [226; 128; 131];
      [226; 128; 132]; [226; 128; 133]; [226; 128; 134]; [226; 128; 135];
      [226; 128; 136]; [226; 128; 137]; [226; 128; 138]; [226; 128; 168];
      [226; 128; 169]; [226; 128; 175]; [226; 129; 159]; [227; 128; 128];
      [239; 187; 191] ].

Fixpoint strip_any (tokens : list string) (s : string) : option string :=
  match tokens with
  | [] => None
  | t :: ts =>
      match strip_prefix t s with
      | Some rest => Some rest
      | None => strip_any ts s
      end
  end.

Fixpoint strip_all (fuel : nat) (tokens : list string) (s : string) : string :=
  match fuel with
  | O => s
  | S fuel' =>
      match strip_any tokens s with
      | Some rest => strip_all fuel' tokens rest
      | None => s
      end
  end.

Definition string_rev (s : string) : string :=
  string_of_list_ascii (rev (list_ascii_of_string s)).

Definition trimStart (s : string) : string :=
  strip_all (String.length s) white_space s.

Definition trimEnd (s : string) : string :=
  string_rev
    (strip_all (String.length s) (map string_rev white_space) (string_rev s)).

(** [s.trim()] *)
Definition trim (s : string) : string := trimEnd (trimStart s).

(** [s.split(sep)[0]] for a one-character separator: what precedes the
    first separator, the whole string when there is none. *)
Fixpoint split_head (sep : ascii) (s : string) : string :=
  match s with
  | EmptyString => EmptyString
  | String c s' =>
      if Ascii.eqb c sep then EmptyString else String c (split_head sep s')
  end.

(** [s.substring(n)] *)
Fixpoint substring_from (n : nat) (s : string) : string :=
  match n, s with
  | O, _ => s
  | S n', String _ s' => substring_from n' s'
  | S _, EmptyString => EmptyString
  end.

(** The first occurrence of [pat] in [s]: the text before and after it. *)
Fixpoint find_first (pat s : string) : option (string * string) :=
  match strip_prefix pat s with
  | Some after => Some (EmptyString, after)
  | None =>
      match s with
      | EmptyString => None
      | String c s' =>
          match find_first pat s' with
          | Some (before, after) => Some (String c before, after)
          | None => None
          end
      end
  end.

(** [GetSubstitution] for a string pattern (no capture groups): in the
    replacement text [$$] is a dollar sign, [$&] the match, [$`] the text
    before it and [$'] the text after it; every other [$] stands for itself. *)
Fixpoint expand (repl matched before after : string) : string :=
  match repl with
  | EmptyString => EmptyString
  | String c r =>
      if Ascii.eqb c "$" then
        match r with
        | String d r' =>
            if Ascii.eqb d "$" then String "$" (expand r' matched before after)
            else if Ascii.eqb d "&" then matched ++ expand r' matched before after
            else if Ascii.eqb d "`" then before ++ expand r' matched before after
            else if Ascii.eqb d "'" then after ++ expand r' matched before after
            else String c (expand r matched before after)
        | EmptyString => String c EmptyString
        end
      else String c (expand r matched before after)
  end.

(** [s.replace(pat, repl)] with a string pattern: the first occurrence only. *)
Definition replace (s pat repl : string) : string :=
  match find_first pat s with
  | Some (before, after) => before ++ expand repl pat before after ++ after
  | None => s
  end.

(** [String(n)] for a count of array elements (below [2^32]). *)
Definition nat_toString (n : nat) : string :=
  NilZero.string_of_uint (Nat.to_uint n).

(** [Number.isSafeInteger(z)] for an integer [z]: a magnitude of at most
    [2^53 - 1]. *)
Definition isSafeInteger (z : Z) : bool := (Z.abs z <=? 2 ^ 53 - 1)%Z.

(** [String(z)] for a safe integer: every digit is printed.  Up to [2^53]
    a double holds every integer, so no text with fewer digits reads back
    as [z]; beyond, [toString] prints the shortest digits that read back
    as the number and fills up with zeros. *)
Definition int_toString (z : Z) : string :=
  NilZero.string_of_int (Z.to_int z).

(* ================================================================== *)
(** * Values of the runtime *)

(** What [JSON.parse] and [axios] hand to the program.  An object lists
    its own properties, each key once. *)
#[warnings="-register-all"]
Inductive value : Type :=
| VUndefined
| VNull
| VBool (b : bool)
| VNum (n : float)
| VStr (s : string)
| VArr (items : list value)
| VObj (fields : list (string * value)).

(** [!v] is false *)
Definition truthy (v : value) : bool :=
  match v with
  | VUndefined | VNull => false
  | VBool b => b
  | VNum n => negb (is_zero n || is_nan n)
  | VStr s => negb (String.eqb s EmptyString)
  | VArr _ | VObj _ => true
  end.

Fixpoint lookup (k : string) (fields : list (string * value)) : value :=
  match fields with
  | [] => VUndefined
  | (k', v) :: rest => if String.eqb k k' then v else lookup k rest
  end.

(** [v.k] for the property names the source reads ([data], [priceList],
    [hargaJual], [hargaBeli], [lastUpdate]): none is an index, and no
    prototype defines one of them.  [None] is the [TypeError] raised on
    [undefined] and [null]. *)
Definition get_prop (k : string) (v : value) : option value :=
  match v with
  | VUndefined | VNull => None
  | VObj fields => Some (lookup k fields)
  | VBool _ | VNum _ | VStr _ | VArr _ => Some VUndefined
  end.

Definition is_continuation (c : ascii) : bool :=
  (128 <=? nat_of_ascii c)%nat && (nat_of_ascii c <? 192)%nat.

Fixpoint continuation (s : string) : string :=
  match s with
  | String c s' =>
      if is_continuation c then String c (continuation s') else EmptyString
  | EmptyString => EmptyString
  end.

(** [v[0]]: the first element of an array, the property ["0"] of an
    object, the first character of a string. *)
Definition get_index0 (v : value) : option value :=
  match v with
  | VUndefined | VNull => None
  | VArr [] => Some VUndefined
  | VArr (x :: _) => Some x
  | VObj fields => Some (lookup "0" fields)
  | VStr EmptyString => Some VUndefined
  | VStr (String c s) => Some (VStr (String c (continuation s)))
  | VBool _ | VNum _ => Some VUndefined
  end.

(* ------------------------------------------------------------------ *)
(** ** [parseFloat] *)

Definition is_digit (c : ascii) : bool :=
  (48 <=? nat_of_ascii c)%nat && (nat_of_ascii c <=? 57)%nat.

Definition digit_value (c : ascii) : Z := Z.of_nat (nat_of_ascii c - 48).

Fixpoint read_digits (s : string) : list Z * string :=
  match s with
  | String c s' =>
      if is_digit c then
        let (ds, rest) := read_digits s' in (digit_value c :: ds, rest)
      else ([], s)
  | EmptyString => ([], s)
  end.

Definition decimal (ds : list Z) : Z :=
  fold_left (fun acc d => 10 * acc + d)%Z ds 0%Z.

(** [ExponentPart], when one follows: [e] or [E], an optional sign and at
    least one digit. *)
Definition read_exponent (s : string) : Z :=
  match s with
  | String c s' =>
      if Ascii.eqb c "e" || Ascii.eqb c "E" then
        match s' with
        | String "+" s'' =>
            match read_digits s'' with ([], _) => 0 | (ds, _) => decimal ds end
        | String "-" s'' =>
            match read_digits s'' with ([], _) => 0 | (ds, _) => - decimal ds end
        | _ =>
            match read_digits s' with ([], _) => 0 | (ds, _) => decimal ds end
        end%Z
      else 0%Z
  | EmptyString => 0%Z
  end.

(** The longest prefix of [s] that is a [StrUnsignedDecimalLiteral] other
    than [Infinity], as a mantissa [m] and a decimal exponent [e]: the
    literal denotes [m * 10^e]. *)
Definition read_decimal (s : string) : option (Z * Z) :=
  let (int_part, r1) := read_digits s in
  match r1 with
  | String "." r =>
      let (frac_part, r2) := read_digits r in
      match int_part, frac_part with
      | [], [] => None
      | _, _ =>
          Some (decimal (int_part ++ frac_part),
                (read_exponent r2 - Z.of_nat (length frac_part))%Z)
      end
  | _ =>
      match int_part with
      | [] => None
      | _ => Some (decimal int_part, read_exponent r1)
      end
  end.

(** The binary64 number nearest to [m * 10^e] (ties to even), for [m >= 0]. *)
Definition decimal_to_float (negative : bool) (m e : Z) : float :=
  if (m =? 0)%Z then (if negative then neg_zero else zero)
  else
    let num := (m * 10 ^ Z.max e 0)%Z in
    let den := (10 ^ Z.max (- e) 0)%Z in
    let '(q, e2, loc) := SFdiv_core_binary prec emax num 0 den 0 in
    SF2Prim (binary_round_aux prec emax negative q e2 loc).

Definition read_unsigned (negative : bool) (s : string) : float :=
  match strip_prefix "Infinity" s with
  | Some _ => if negative then neg_infinity else infinity
  | None =>
      match read_decimal s with
      | Some (m, e) => decimal_to_float negative m e
      | None => nan
      end
  end.

(** [parseFloat(s)] on a string: leading white space is skipped, the
    longest prefix that is a [StrDecimalLiteral] is read, and [NaN] is the
    answer when there is none. *)
Definition parseFloat_string (s : string) : float :=
  match trimStart s with
  | String "+" r => read_unsigned false r
  | String "-" r => read_unsigned true r
  | r => read_unsigned false r
  end.

(** Whether an object has an own property [k]. *)
Definition has_own (k : string) (fields : list (string * value)) : bool :=
  existsb (fun kv => String.eqb k (fst kv)) fields.

(** Whether [String(v)] returns.  It raises a [TypeError] on an object
    with an own property [toString]: what [JSON.parse] stores under that
    key is not callable, and [Object.prototype.valueOf] returns the object
    itself, so the conversion finds no primitive.  An object without that
    key prints as ["[object Object]"].  An array prints through [join],
    which converts every element other than [undefined] and [null], so it
    raises when one of them does, at any position and depth. *)
Fixpoint printable (v : value) : bool :=
  match v with
  | VObj fields => negb (has_own "toString" fields)
  | VArr items => forallb printable items
  | VUndefined | VNull | VBool _ | VNum _ | VStr _ => true
  end.

(** The number [parseFloat] reads in the text a printable [v] prints to.
    A number prints to a text that reads back as itself, [-0] apart,
    which prints as ["0"]; [undefined], [null], booleans and objects print
    to texts with no numeric prefix; an array prints its elements
    separated by commas ([undefined] and [null] as nothing), and no
    number goes on over a comma, so only the first one is read. *)
Fixpoint leading_number (v : value) : float :=
  match v with
  | VStr s => parseFloat_string s
  | VNum n => if is_zero n then zero else n
  | VArr (VUndefined :: _) | VArr (VNull :: _) => nan
  | VArr (x :: _) => leading_number x
  | VArr [] | VUndefined | VNull | VBool _ | VObj _ => nan
  end.

(** [parseFloat(v)] converts [v] to a string first and reads the number
    the string starts with.  [None] is the [TypeError] raised by the
    conversion. *)
Definition parseFloat (v : value) : option float :=
  if printable v then Some (leading_number v) else None.

(** [JSON.parse(JSON.stringify(n))] for a number: [NaN] and the
    infinities are written as [null], and [-0] as [0]. *)
Definition json_number (n : float) : option float :=
  if is_finite n then Some (if is_zero n then zero else n) else None.

(** [JSON.parse(JSON.stringify(v))] for a value other than [undefined]:
    inside an array [undefined] becomes [null], inside an object a property
    that is [undefined] is left out. *)
Fixpoint json_value (v : value) : value :=
  match v with
  | VNum n => match json_number n with Some m => VNum m | None => VNull end
  | VArr items =>
      VArr (map (fun x => match x with
                          | VUndefined => VNull
                          | _ => json_value x
                          end) items)
  | VObj fields =>
      VObj ((fix members (fs : list (string * value)) :=
               match fs with
               | [] => []
               | (_, VUndefined) :: rest => members rest
               | (k, x) :: rest => (k, json_value x) :: members rest
               end) fields)
  | VUndefined | VNull | VBool _ | VStr _ => v
  end.

(* ================================================================== *)
(** * Data model *)

(** A chat identifier as Telegram sends it (a number: an integer that a
    double holds exactly) or as the environment configures it (a string). *)
Inductive chat_id : Type :=
| NumId (n : Z)
| StrId (s : string).

(** [a === b] *)
Definition chat_id_eqb (a b : chat_id) : bool :=
  match a, b with
  | NumId x, NumId y => Z.eqb x y
  | StrId x, StrId y => String.eqb x y
  | _, _ => false
  end.

(** An entry of [users.json]. *)
Record user : Type := mkUser {
  chatId : chat_id;
  username : string;
  subscribedAt : string
}.

(** The object [newData] that [checkPriceChanges] builds. *)
Record price_data : Type := mkPriceData {
  buyPrice : float;
  sellPrice : float;
  lastUpdate : value
}.

(** The object read back from [data.json]: a price is a number or [null]. *)
Module Snapshot.
Record t : Type := make {
  buyPrice : option float;
  sellPrice : option float;
  lastUpdate : value
}.
End Snapshot.

(** [JSON.parse(JSON.stringify(data, null, 2))] *)
Definition json_price_data (data : price_data) : Snapshot.t :=
  Snapshot.make (json_number (buyPrice data)) (json_number (sellPrice data))
    (json_value (lastUpdate data)).

(** [ToNumber] of a stored price: [null] counts as [0]. *)
Definition to_number (price : option float) : float :=
  match price with
  | Some n => n
  | None => zero
  end.

(* ------------------------------------------------------------------ *)
(** ** The world outside the program *)

(** A file on disk: absent; present but [readFileSync] raises; readable
    but [JSON.parse] raises on its text; or holding the document [doc]. *)
Inductive file (A : Type) : Type :=
| Missing
| Unreadable
| Corrupt
| Holds (doc : A).

Arguments Missing {A}.
Arguments Unreadable {A}.
Arguments Corrupt {A}.
Arguments Holds {A} doc.

(** What [readFileSync] returns: text that [JSON.parse] accepts or not. *)
Inductive contents (A : Type) : Type :=
| Garbage
| Json (doc : A).

Arguments Garbage {A}.
Arguments Json {A} doc.

Inductive path : Type := USERS_FILE | DATA_FILE.

(** One call of the Telegram [sendMessage] method and how it ended. *)
Record delivery : Type := mkDelivery {
  recipient : chat_id;
  body : string;
  delivered : bool
}.

Record world : Type := mkWorld {
  users_file : file (list user);
  data_file : file Snapshot.t;
  outbox : list delivery;            (* oldest first *)
  disk_log : list (path * bool)      (* every writeFileSync, oldest first *)
}.

Definition set_users_file (f : file (list user)) (w : world) : world :=
  mkWorld f (data_file w) (outbox w) (disk_log w).

Definition set_data_file (f : file Snapshot.t) (w : world) : world :=
  mkWorld (users_file w) f (outbox w) (disk_log w).

Definition post (d : delivery) (w : world) : world :=
  mkWorld (users_file w) (data_file w) (outbox w ++ [d]) (disk_log w).

Definition log_write (p : path) (ok : bool) (w : world) : world :=
  mkWorld (users_file w) (data_file w) (outbox w) (disk_log w ++ [(p, ok)]).

(* ------------------------------------------------------------------ *)
(** ** Computations: state and exceptions *)

Inductive error : Type := TypeError | RangeError | SyntaxError | SystemError.

Inductive outcome (A : Type) : Type :=
| Returned (a : A)
| Thrown (e : error).

Arguments Returned {A} a.
Arguments Thrown {A} e.

Definition M (A : Type) : Type := world -> outcome A * world.

Definition ret {A} (a : A) : M A := fun w => (Returned a, w).

Definition throw {A} (e : error) : M A := fun w => (Thrown e, w).

Definition bind {A B} (m : M A) (k : A -> M B) : M B :=
  fun w =>
    match m w with
    | (Returned a, w') => k a w'
    | (Thrown e, w') => (Thrown e, w')
    end.

(** [try { m } catch (error) { handler(error) }] *)
Definition try_catch {A} (m : M A) (handler : error -> M A) : M A :=
  fun w =>
    match m w with
    | (Returned a, w') => (Returned a, w')
    | (Thrown e, w') => handler e w'
    end.

Notation "x <- m ;; k" := (bind m (fun x => k))
  (at level 61, m at next level, right associativity).
Notation "m ;;; k" := (bind m (fun _ => k))
  (at level 61, right associativity).

Definition lift {A} (e : error) (o : option A) : M A :=
  match o with
  | Some a => ret a
  | None => throw e
  end.

(** [fs.existsSync] *)
Definition existsSync {A} (f : world -> file A) : M bool :=
  fun w =>
    match f w with
    | Missing => (Returned false, w)
    | Unreadable | Corrupt | Holds _ => (Returned true, w)
    end.

(** [fs.readFileSync(f, 'utf8')] *)
Definition readFileSync {A} (f : world -> file A) : M (contents A) :=
  fun w =>
    match f w with
    | Missing | Unreadable => (Thrown SystemError, w)
    | Corrupt => (Returned Garbage, w)
    | Holds doc => (Returned (Json doc), w)
    end.

(** [JSON.parse] *)
Definition JSON_parse {A} (content : contents A) : M A :=
  match content with
  | Garbage => throw SyntaxError
  | Json doc => ret doc
  end.

(* ================================================================== *)
(** * Constants of the program *)

Module COMMANDS.
Definition START : string := "/start".
Definition STOP : string := "/stop".
Definition HELP : string := "/help".
Definition BROADCAST : string := "/broadcast".
End COMMANDS.

Module MESSAGES.
Definition PRICE_LIST : string :=
  "*Gold Savings Price List*" ++ nl ++ nl ++ "Buy: {buyPrice}" ++ nl
  ++ "Sell: {sellPrice}" ++ nl ++ "Last Update: {lastUpdate}".
Definition BUY_PRICE_DROPPED : string :=
  "⬇️ *Buy price dropped* From {oldPrice} to *{newPrice}*".
Definition SELL_PRICE_INCREASED : string :=
  "⬆️ *Sell price increased* From {oldPrice} to *{newPrice}*".
Definition DATA_FETCH_ERROR : string :=
  "⚠️ *Failed to fetch price data*" ++ nl ++ "Error: {errorMessage}".
Definition WELCOME : string :=
  "Welcome to Gold Price Bot! You are now subscribed to price updates. Use /help for available commands.".
Definition ALREADY_SUBSCRIBED : string :=
  "You are already subscribed to price updates!".
Definition UNSUBSCRIBED : string :=
  "You have unsubscribed from price updates. Use /start to subscribe again.".
Definition NOT_SUBSCRIBED : string :=
  "You are not currently subscribed to updates.".
Definition HELP : string :=
  "Available commands:" ++ nl ++ "/start - Subscribe to price updates" ++ nl
  ++ "/stop - Unsubscribe from price updates" ++ nl
  ++ "/help - Show this help message".
Definition ADMIN_HELP : string :=
  "Admin commands:" ++ nl
  ++ "/broadcast [message] - Send message to all subscribers".
Definition BROADCAST_SENT : string := "✅ Broadcast sent to {count} users".
Definition UNAUTHORIZED : string :=
  "You are not authorized to use this command.".
End MESSAGES.

(** The outcome of the request to the price source: the rejection's
    [error.message], or [response.data]. *)
Inductive response : Type :=
| Failed (errorMessage : string)
| Replied (data : value).

(** [update.message] of an inbound Telegram update: [chat.id], [text] and
    [from.username]; the last two may be absent. *)
Record message : Type := mkMessage {
  msg_chat : chat_id;
  msg_text : option string;
  msg_username : option string
}.

(** [s || fallback] for an optional string *)
Definition or_else (s : option string) (fallback : string) : string :=
  match s with
  | Some (String c r) => String c r
  | Some EmptyString | None => fallback
  end.

(** [payload.data.priceList[0]]; [None] is the [TypeError] raised when
    [data] or [priceList] is [undefined] or [null]. *)
Definition first_entry (payload : value) : option value :=
  match get_prop "data" payload with
  | None => None
  | Some data =>
      match get_prop "priceList" data with
      | None => None
      | Some priceList => get_index0 priceList
      end
  end.

(** [payload.data.priceList[0].field]; the first entry itself may be
    [undefined] or [null]. *)
Definition price_field (payload : value) (field : string) : option value :=
  match first_entry payload with
  | None => None
  | Some entry => get_prop field entry
  end.

(** The object literal bound to [newData] (lines 255-259), evaluated in
    the order of the source.  [None] is the [TypeError] raised by a
    property read or by [parseFloat]; both end the cycle in the same
    handler (lines 313-315). *)
Definition parse_newData (currentData : value) : option price_data :=
  match price_field currentData "hargaJual" with
  | None => None
  | Some hargaJual =>
      match parseFloat hargaJual with
      | None => None
      | Some buy =>
          match price_field currentData "hargaBeli" with
          | None => None
          | Some hargaBeli =>
              match parseFloat hargaBeli with
              | None => None
              | Some sell =>
                  match price_field currentData "lastUpdate" with
                  | None => None
                  | Some lastUpdate0 => Some (mkPriceData buy sell lastUpdate0)
                  end
              end
          end
      end
  end.

(* ================================================================== *)
(** * Sample data for the worked instances *)

(** A sample environment: the admin is chat 42, Telegram and the disk
    work ([sample_up]) or not ([sample_down]). *)
Definition sample_admin : string := "42".
Definition sample_up (k : nat) : bool := true.
Definition sample_down (k : nat) : bool := false.

(** A stand-in for the currency formatter: it prints the amounts used
    below as V8 does (a no-break space follows [Rp]). *)
Definition sample_rupiah (n : float) : string :=
  "Rp" ++ utf8 [194; 160] ++
  (if Leibniz.eqb n 100000 then "100.000,00"
   else if Leibniz.eqb n 95000 then "95.000,00"
   else if Leibniz.eqb n 99000 then "99.000,00"
   else if Leibniz.eqb n 96000 then "96.000,00"
   else if is_nan n then "NaN"
   else "0,00").

(** A stand-in for [toString] beyond the safe integers, right at [2^60]. *)
Definition sample_Number_toString (z : Z) : string :=
  if (z =? 2 ^ 60)%Z then "1152921504606847000" else "1e+21".

(** A stand-in for [Date]: one valid timestamp, everything else invalid. *)
Definition sample_toISOString (v : value) : option string :=
  match v with
  | VStr s =>
      if String.eqb s "2024-05-01T10:00:00Z"
      then Some "2024-05-01T10:00:00.000Z" else None
  | _ => None
  end.

Definition ann : user := mkUser (NumId 7) "ann" "2024-04-01T08:00:00.000Z".
Definition bob : user := mkUser (NumId 8) "bob" "2024-04-02T09:30:00.000Z".

Definition price_entry (hargaJual hargaBeli : string) : value :=
  VObj [("hargaJual", VStr hargaJual); ("hargaBeli", VStr hargaBeli);
        ("lastUpdate", VStr "2024-05-01T10:00:00Z")].

Definition sample_payload : value :=
  VObj [("data", VObj [("priceList", VArr [price_entry "100000" "95000"])])].

Definition sample_newData : price_data :=
  mkPriceData 100000 95000 (VStr "2024-05-01T10:00:00Z").

Definition sample_snapshot : Snapshot.t :=
  Snapshot.make (Some 100000%float) (Some 95000%float)
    (VStr "2024-05-01T10:00:00Z").

(** Two subscribers and no snapshot; then the same with a snapshot. *)
Definition world0 : world := mkWorld (Holds [ann; bob]) Missing [] [].
Definition world1 : world := mkWorld (Holds [ann; bob]) (Holds sample_snapshot) [] [].

Definition sample_update (sender : chat_id) (text : string) : option message :=
  Some (mkMessage sender (Some text) (Some "ann")).

(** A world whose two files exist and cannot be used. *)
Definition world_unusable : world := mkWorld Corrupt Unreadable [] [].

(** The snapshot a later cycle writes for [sample_payload], and a snapshot
    with [null] prices. *)
Definition adjusted_snapshot : Snapshot.t :=
  Snapshot.make (Some 99000%float) (Some 96000%float)
    (VStr "2024-05-01T10:00:00Z").
Definition null_snapshot : Snapshot.t :=
  Snapshot.make None None (VStr "2024-05-01T10:00:00Z").
Definition world2 : world := mkWorld (Holds [ann; bob]) (Holds adjusted_snapshot) [] [].
Definition world_null : world := mkWorld (Holds [ann; bob]) (Holds null_snapshot) [] [].

(** A payload whose sell price is not a number. *)
Definition unpriced_payload : value :=
  VObj [("data", VObj [("priceList", VArr [price_entry "100000" "n/a"])])].

(** A payload whose last update is no date. *)
Definition undated_payload : value :=
  VObj [("data",
         VObj [("priceList",
                VArr [VObj [("hargaJual", VStr "100000");
                            ("hargaBeli", VStr "95000");
                            ("lastUpdate", VStr "yesterday")]])])].

(** A payload whose sell price is an object that cannot be printed. *)
Definition unprintable_payload : value :=
  VObj [("data",
         VObj [("priceList",
                VArr [VObj [("hargaJual", VStr "100000");
                            ("hargaBeli", VObj [("toString", VNum 1)]);
                            ("lastUpdate", VStr "2024-05-01T10:00:00Z")]])])].

(** A message from chat 9, a stranger without user name, and one from ann. *)
Definition from_cat (text : string) : message :=
  mkMessage (NumId 9) (Some text) None.
Definition from_ann (text : string) : message :=
  mkMessage (NumId 7) (Some text) (Some "ann").
Definition cat : user := mkUser (NumId 9) "unknown" "2024-05-01T10:00:00.000Z".

(* ================================================================== *)
(** * The program *)

Section Bot.

(** [process.env.ADMIN_CHAT_ID] *)
Variable ADMIN_CHAT_ID : string.

(** Whether the k-th call of the Telegram API succeeds, and whether the
    k-th [writeFileSync] does (k counts from 0). *)
Variable telegram_up : nat -> bool.
Variable disk_up : nat -> bool.

(** [n.toLocaleString('id-ID', { style: 'currency', currency: 'IDR' })] *)
Variable toLocaleString_IDR : float -> string.

(** [new Date(v).toISOString()]; [None] when the date is invalid and
    [toISOString] raises a [RangeError]. *)
Variable Date_toISOString : value -> option string.

(** [n.toString()] for an integer [n] that is not safe: the shortest
    digits that read back as [n], filled up with zeros, or followed by an
    exponent from [10^21] on. *)
Variable Number_toString : Z -> string.

(** [id.toString()] *)
Definition chat_id_toString (id : chat_id) : string :=
  match id with
  | NumId n => if isSafeInteger n then int_toString n else Number_toString n
  | StrId s => s
  end.

(** [fs.writeFileSync(p, JSON.stringify(doc, null, 2))]: [store] puts the
    document, as [JSON.parse] will read it back, in the file. *)
Definition writeFileSync (p : path) (store : world -> world) : M unit :=
  fun w =>
    let ok := disk_up (length (disk_log w)) in
    let w' := log_write p ok w in
    if ok then (Returned tt, store w') else (Thrown SystemError, w').

(** Lines 45-59: the request succeeds and [true] is returned, or it
    fails, the catch logs and [false] is returned. *)
Definition sendTelegramMessage (chatId : chat_id) (message : string) : M bool :=
  fun w =>
    let ok := telegram_up (length (outbox w)) in
    (Returned ok, post (mkDelivery chatId message ok) w).

(** Lines 82-94. *)
Definition loadUsers : M (list user) :=
  try_catch
    (present <- existsSync users_file ;;
     if negb present then
       writeFileSync USERS_FILE (set_users_file (Holds [])) ;;;
       ret []
     else
       content <- readFileSync users_file ;;
       JSON_parse content)
    (fun _ => ret []).

(** Lines 70-73: the loop over the users, with its counter. *)
Fixpoint broadcast_loop (users : list user) (message : string)
    (sentCount : nat) : M nat :=
  match users with
  | [] => ret sentCount
  | user :: rest =>
      sent <- sendTelegramMessage (chatId user) message ;;
      broadcast_loop rest message (if sent then S sentCount else sentCount)
  end.

(** Lines 66-76. *)
Definition broadcastMessage (message : string) : M nat :=
  users <- loadUsers ;;
  broadcast_loop users message 0.

(** Lines 100-107: the catch logs and the function returns nothing. *)
Definition saveUsers (users : list user) : M unit :=
  try_catch
    (writeFileSync USERS_FILE (set_users_file (Holds users)))
    (fun _ => ret tt).

(** Lines 115-131; [now] is [new Date().toISOString()] at the time of the
    call. *)
Definition addUser (now : string) (chatId0 : chat_id) (username0 : string)
    : M bool :=
  users <- loadUsers ;;
  match find (fun user => chat_id_eqb (chatId user) chatId0) users with
  | Some _ => ret false
  | None =>
      saveUsers (users ++ [mkUser chatId0 username0 now])%list ;;;
      ret true
  end.

(** Lines 138-150. *)
Definition removeUser (chatId0 : chat_id) : M bool :=
  users <- loadUsers ;;
  let initialLength := length users in
  let filteredUsers :=
    filter (fun user => negb (chat_id_eqb (chatId user) chatId0)) users in
  if (length filteredUsers <? initialLength)%nat then
    saveUsers filteredUsers ;;;
    ret true
  else ret false.

(** Lines 157-160. *)
Definition isUserSubscribed (chatId0 : chat_id) : M bool :=
  users <- loadUsers ;;
  ret (existsb (fun user => chat_id_eqb (chatId user) chatId0) users).

(** Lines 166-182; [r] is how [axios.post(API_URL, form, ...)] ends. *)
Definition fetchData (r : response) : M value :=
  match r with
  | Replied data => ret data
  | Failed errorMessage =>
      sendTelegramMessage (StrId ADMIN_CHAT_ID)
        (replace MESSAGES.DATA_FETCH_ERROR "{errorMessage}" errorMessage) ;;;
      ret VNull
  end.

(** Lines 188-195. *)
Definition saveData (data : price_data) : M unit :=
  try_catch
    (writeFileSync DATA_FILE (set_data_file (Holds (json_price_data data))))
    (fun _ => ret tt).

(** Lines 201-210; [null] is [None]. *)
Definition loadData : M (option Snapshot.t) :=
  try_catch
    (present <- existsSync data_file ;;
     if negb present then ret None
     else
       content <- readFileSync data_file ;;
       doc <- JSON_parse content ;;
       ret (Some doc))
    (fun _ => ret None).

(** Lines 233-236. *)
Definition formatDate (dateString : value) : M string :=
  iso <- lift RangeError (Date_toISOString dateString) ;;
  ret (split_head "T" iso).

(** Lines 243-245; [price.toLocaleString] raises a [TypeError] on [null]. *)
Definition formatPrice (price : option float) : M string :=
  match price with
  | Some n => ret (toLocaleString_IDR n)
  | None => throw TypeError
  end.

(** Lines 306-310: the loop over the messages. *)
Fixpoint broadcast_each (messages : list string) : M unit :=
  match messages with
  | [] => ret tt
  | message :: rest => broadcastMessage message ;;; broadcast_each rest
  end.

(** Lines 250-316. *)
Definition checkPriceChanges (r : response) : M unit :=
  currentData <- fetchData r ;;
  if negb (truthy currentData) then ret tt
  else
    try_catch
      (newData <- lift TypeError (parse_newData currentData) ;;
       previousData <- loadData ;;
       match previousData with
       | None =>
           saveData newData ;;;
           formattedBuyPrice <- formatPrice (Some (buyPrice newData)) ;;
           formattedSellPrice <- formatPrice (Some (sellPrice newData)) ;;
           date <- formatDate (lastUpdate newData) ;;
           let message :=
             replace
               (replace
                  (replace MESSAGES.PRICE_LIST "{buyPrice}" formattedBuyPrice)
                  "{sellPrice}" formattedSellPrice)
               "{lastUpdate}" date in
           broadcastMessage message ;;;
           ret tt
       | Some previousData =>
           let newData :=
             mkPriceData (buyPrice newData - 1000)%float
               (sellPrice newData + 1000)%float (lastUpdate newData) in
           let messages : list string := [] in
           messages <-
             (if (buyPrice newData <? to_number (Snapshot.buyPrice previousData))%float
              then
                oldBuyPrice <- formatPrice (Snapshot.buyPrice previousData) ;;
                newBuyPrice <- formatPrice (Some (buyPrice newData)) ;;
                ret (messages ++
                     [replace
                        (replace MESSAGES.BUY_PRICE_DROPPED "{oldPrice}" oldBuyPrice)
                        "{newPrice}" newBuyPrice])%list
              else ret messages) ;;
           messages <-
             (if (to_number (Snapshot.sellPrice previousData) <? sellPrice newData)%float
              then
                oldSellPrice <- formatPrice (Snapshot.sellPrice previousData) ;;
                newSellPrice <- formatPrice (Some (sellPrice newData)) ;;
                ret (messages ++
                     [replace
                        (replace MESSAGES.SELL_PRICE_INCREASED "{oldPrice}" oldSellPrice)
                        "{newPrice}" newSellPrice])%list
              else ret messages) ;;
           broadcast_each messages ;;;
           saveData newData
       end)
      (fun _ => ret tt).

(** Lines 340-419; [update] is [update.message], [None] when the update
    has none; [now] is the clock read by [addUser]. *)
Definition processUpdate (now : string) (update : option message) : M unit :=
  match update with
  | None => ret tt
  | Some msg =>
      let chatId0 := msg_chat msg in
      let messageText := or_else (msg_text msg) "" in
      let username0 := or_else (msg_username msg) "unknown" in
      if startsWith messageText "/" then
        let command := split_head " " messageText in
        let args := trim (substring_from (String.length command) messageText) in
        if String.eqb command COMMANDS.START then
          added <- addUser now chatId0 username0 ;;
          sendTelegramMessage chatId0
            (if added then MESSAGES.WELCOME else MESSAGES.ALREADY_SUBSCRIBED) ;;;
          if added then
            currentData <- loadData ;;
            match currentData with
            | Some currentData =>
                formattedBuyPrice <- formatPrice (Snapshot.buyPrice currentData) ;;
                formattedSellPrice <- formatPrice (Snapshot.sellPrice currentData) ;;
                date <- formatDate (Snapshot.lastUpdate currentData) ;;
                let message :=
                  replace
                    (replace
                       (replace MESSAGES.PRICE_LIST "{buyPrice}" formattedBuyPrice)
                       "{sellPrice}" formattedSellPrice)
                    "{lastUpdate}" date in
                sendTelegramMessage chatId0 message ;;;
                ret tt
            | None => ret tt
            end
          else ret tt
        else if String.eqb command COMMANDS.STOP then
          removed <- removeUser chatId0 ;;
          sendTelegramMessage chatId0
            (if removed then MESSAGES.UNSUBSCRIBED else MESSAGES.NOT_SUBSCRIBED) ;;;
          ret tt
        else if String.eqb command COMMANDS.HELP then
          let helpMessage := MESSAGES.HELP in
          let helpMessage :=
            if String.eqb (chat_id_toString chatId0) ADMIN_CHAT_ID
            then helpMessage ++ nl ++ nl ++ MESSAGES.ADMIN_HELP
            else helpMessage in
          sendTelegramMessage chatId0 helpMessage ;;;
          ret tt
        else if String.eqb command COMMANDS.BROADCAST then
          if negb (String.eqb (chat_id_toString chatId0) ADMIN_CHAT_ID) then
            sendTelegramMessage chatId0 MESSAGES.UNAUTHORIZED ;;;
            ret tt
          else if negb (String.eqb args EmptyString) then
            sentCount <- broadcastMessage args ;;
            sendTelegramMessage chatId0
              (replace MESSAGES.BROADCAST_SENT "{count}" (nat_toString sentCount)) ;;;
            ret tt
          else
            sendTelegramMessage chatId0 "Please provide a message to broadcast" ;;;
            ret tt
        else
          sendTelegramMessage chatId0
            ("Unknown command. Use " ++ COMMANDS.HELP ++ " for available commands.") ;;;
          ret tt
      else if negb (String.eqb (chat_id_toString chatId0) ADMIN_CHAT_ID) then
        sendTelegramMessage chatId0
          ("Use " ++ COMMANDS.HELP ++ " for available commands.") ;;;
        ret tt
      else ret tt
  end.

(** [fs.unlinkSync(DATA_FILE)]; [ok] is how the call ends. *)
Definition unlinkSync (ok : bool) : M unit :=
  fun w =>
    if ok then (Returned tt, set_data_file Missing w)
    else (Thrown SystemError, w).

(** Lines 215-226; [unlinked] is how [unlinkSync] ends when it is called. *)
Definition deleteDataFile (unlinked : bool) : M unit :=
  try_catch
    (present <- existsSync data_file ;;
     if present then unlinkSync unlinked else ret tt)
    (fun _ => ret tt).

(** Lines 448 and 457: what the initialisation does to the two files and
    to the outbox before the first scheduled tick.  [setupWebhook] and
    [startServer], which run in between, touch neither. *)
Definition first_check (unlinked : bool) (r : response) : M unit :=
  deleteDataFile unlinked ;;;
  checkPriceChanges r.

(* ================================================================== *)
(** * Vocabulary of the properties *)

(** The subscriber collection as [loadUsers] reads it. *)
Definition subscribers (w : world) : list user :=
  match users_file w with
  | Holds users => users
  | Missing | Unreadable | Corrupt => []
  end.

(** A file that is missing, unreadable or unparsable. *)
Definition blank {A} (f : file A) : bool :=
  match f with
  | Holds _ => false
  | Missing | Unreadable | Corrupt => true
  end.

Definition same_chat (id : chat_id) (u : user) : bool :=
  chat_id_eqb (chatId u) id.

(** The identities in the store. *)
Definition identities (w : world) : list chat_id :=
  map chatId (subscribers w).

Definition post_all (ds : list delivery) (w : world) : world :=
  mkWorld (users_file w) (data_file w) (outbox w ++ ds) (disk_log w).

(** One [sendMessage] call per user, in the order of the list, the first
    of them being the k-th call made to Telegram. *)
Fixpoint attempts_from (k : nat) (users : list user) (message : string)
    : list delivery :=
  match users with
  | [] => []
  | u :: rest =>
      mkDelivery (chatId u) message (telegram_up k)
      :: attempts_from (S k) rest message
  end.

(** The calls of one broadcast after another, all to the same users. *)
Fixpoint announcements (k : nat) (users : list user) (messages : list string)
    : list delivery :=
  match messages with
  | [] => []
  | m :: rest =>
      attempts_from k users m ++ announcements (k + length users) users rest
  end.

Definition successes (ds : list delivery) : nat :=
  length (filter delivered ds).

Definition failures (ds : list delivery) : nat :=
  length (filter (fun d => negb (delivered d)) ds).

(** The world once [loadUsers] has run: a missing file is created empty
    when the disk allows it. *)
Definition after_loadUsers (w : world) : world :=
  match users_file w with
  | Missing =>
      if disk_up (length (disk_log w))
      then set_users_file (Holds []) (log_write USERS_FILE true w)
      else log_write USERS_FILE false w
  | Unreadable | Corrupt | Holds _ => w
  end.

Fixpoint after_broadcasts (messages : list string) (w : world) : world :=
  match messages with
  | [] => w
  | m :: rest =>
      after_broadcasts rest
        (post_all (attempts_from (length (outbox w)) (subscribers w) m)
           (after_loadUsers w))
  end.

(** The three texts the detection cycle broadcasts. *)
Definition price_list_message (buy sell : float) (date : string) : string :=
  replace
    (replace
       (replace MESSAGES.PRICE_LIST "{buyPrice}" (toLocaleString_IDR buy))
       "{sellPrice}" (toLocaleString_IDR sell))
    "{lastUpdate}" date.

Definition buy_dropped_message (oldPrice newPrice : float) : string :=
  replace
    (replace MESSAGES.BUY_PRICE_DROPPED "{oldPrice}" (toLocaleString_IDR oldPrice))
    "{newPrice}" (toLocaleString_IDR newPrice).

Definition sell_increased_message (oldPrice newPrice : float) : string :=
  replace
    (replace MESSAGES.SELL_PRICE_INCREASED "{oldPrice}" (toLocaleString_IDR oldPrice))
    "{newPrice}" (toLocaleString_IDR newPrice).

(** The alert sent to the administrator when the price source fails. *)
Definition fetch_error_message (errorMessage : string) : string :=
  replace MESSAGES.DATA_FETCH_ERROR "{errorMessage}" errorMessage.

(** [newData] after lines 275-276. *)
Definition adjust (newData : price_data) : price_data :=
  mkPriceData (buyPrice newData - 1000)%float (sellPrice newData + 1000)%float
    (lastUpdate newData).

(** A payload whose first price-list entry cannot be reached, or is
    [undefined] or [null]. *)
Definition no_price_entry (payload : value) : bool :=
  match first_entry payload with
  | None | Some VUndefined | Some VNull => true
  | Some _ => false
  end.

(** A replacement text in which [replace] finds nothing to expand. *)
Fixpoint no_dollar (s : string) : bool :=
  match s with
  | EmptyString => true
  | String c r => negb (Ascii.eqb c "$") && no_dollar r
  end.

(** Two worlds that differ at most in the snapshot file. *)
Definition same_but_snapshot (w1 w2 : world) : Prop :=
  users_file w1 = users_file w2 /\
  outbox w1 = outbox w2 /\
  disk_log w1 = disk_log w2.

(** The world once [saveUsers users] has run. *)
Definition after_saveUsers (users : list user) (w : world) : world :=
  if disk_up (length (disk_log w))
  then set_users_file (Holds users) (log_write USERS_FILE true w)
  else log_write USERS_FILE false w.

(** A call of the subscriber store on one identity. *)
Inductive store_op : Type :=
| Add (now username0 : string)
| Remove.

Definition apply_op (id : chat_id) (op : store_op) : M bool :=
  match op with
  | Add now username0 => addUser now id username0
  | Remove => removeUser id
  end.

(** The worlds a sequence of calls goes through, one per call. *)
Fixpoint run_ops (id : chat_id) (ops : list store_op) (w : world) : list world :=
  match ops with
  | [] => []
  | op :: rest =>
      let w' := snd (apply_op id op w) in
      w' :: run_ops id rest w'
  end.

(** The price list as [processUpdate] renders a stored snapshot for a new
    subscriber; [None] when a price is [null] or the date is invalid. *)
Definition snapshot_text (s : Snapshot.t) : option string :=
  match Snapshot.buyPrice s, Snapshot.sellPrice s,
        Date_toISOString (Snapshot.lastUpdate s) with
  | Some buy, Some sell, Some iso =>
      Some (price_list_message buy sell (split_head "T" iso))
  | _, _, _ => None
  end.

(** The record [addUser] stores for the sender of a message. *)
Definition new_subscriber (now : string) (msg : message) : user :=
  mkUser (msg_chat msg) (or_else (msg_username msg) "unknown") now.

(** The sender of a message is the admin. *)
Definition from_admin (msg : message) : bool :=
  String.eqb (chat_id_toString (msg_chat msg)) ADMIN_CHAT_ID.

(** The records of everybody but [id]. *)
Definition others (id : chat_id) (users : list user) : list user :=
  filter (fun user => negb (same_chat id user)) users.

(** No character of [s] is [c]. *)
Fixpoint without (c : ascii) (s : string) : bool :=
  match s with
  | EmptyString => true
  | String d r => negb (Ascii.eqb d c) && without c r
  end.

(** What a handler working for [id] may do between two worlds: leave the
    snapshot file and the records of everybody else alone, and add to the
    outbox calls that satisfy [P]. *)
Definition effects (id : chat_id) (P : delivery -> Prop) (w w' : world) : Prop :=
  data_file w' = data_file w /\
  others id (subscribers w') = others id (subscribers w) /\
  exists ds, outbox w' = (outbox w ++ ds)%list /\ Forall P ds.

(** The price list sent to a new subscriber as the k-th call, when the
    snapshot file holds a snapshot that can be rendered. *)
Definition price_reply (sender : chat_id) (k : nat) (f : file Snapshot.t)
    : list delivery :=
  match f with
  | Holds s =>
      match snapshot_text s with
      | Some m => [mkDelivery sender m (telegram_up k)]
      | None => []
      end
  | Missing | Unreadable | Corrupt => []
  end.

(* ================================================================== *)
(** * How each operation runs *)

(** Unfolds the plumbing of a computation, down to the operations. *)
Ltac mred :=
  cbv beta iota delta [bind ret throw try_catch lift formatPrice formatDate negb].

Lemma chat_id_eqb_eq : forall a b, chat_id_eqb a b = true <-> a = b.
Proof.
  intros [x | x] [y | y]; simpl; split; intro H; try discriminate.
  - apply Z.eqb_eq in H. now subst.
  - injection H as ->. apply Z.eqb_refl.
  - apply String.eqb_eq in H. now subst.
  - injection H as ->. apply String.eqb_refl.
Qed.

Lemma chat_id_eqb_refl : forall a, chat_id_eqb a a = true.
Proof. intro a. now apply chat_id_eqb_eq. Qed.

Lemma loadUsers_eq : forall w,
  loadUsers w = (Returned (subscribers w), after_loadUsers w).
Proof.
  intro w.
  unfold loadUsers, try_catch, bind, existsSync, readFileSync, writeFileSync,
    subscribers, after_loadUsers.
  destruct (users_file w) eqn:E; simpl; try rewrite E; simpl; try reflexivity.
  destruct (disk_up (length (disk_log w))); reflexivity.
Qed.

Lemma subscribers_after_loadUsers : forall w,
  subscribers (after_loadUsers w) = subscribers w.
Proof.
  intro w. unfold after_loadUsers, subscribers.
  destruct (users_file w) eqn:E; try (rewrite E; reflexivity).
  destruct (disk_up (length (disk_log w))); simpl; try rewrite E; reflexivity.
Qed.

Lemma outbox_after_loadUsers : forall w,
  outbox (after_loadUsers w) = outbox w.
Proof.
  intro w. unfold after_loadUsers.
  destruct (users_file w); try reflexivity.
  destruct (disk_up (length (disk_log w))); reflexivity.
Qed.

Lemma data_file_after_loadUsers : forall w,
  data_file (after_loadUsers w) = data_file w.
Proof.
  intro w. unfold after_loadUsers.
  destruct (users_file w); try reflexivity.
  destruct (disk_up (length (disk_log w))); reflexivity.
Qed.

Lemma after_loadUsers_holds : forall w users,
  users_file w = Holds users -> after_loadUsers w = w.
Proof. intros w users E. unfold after_loadUsers. now rewrite E. Qed.

Lemma post_all_cons : forall d ds w,
  post_all (d :: ds) w = post_all ds (post d w).
Proof.
  intros. unfold post_all, post. simpl. now rewrite <- app_assoc.
Qed.

Lemma post_all_nil : forall w, post_all [] w = w.
Proof. intros [u d o l]. unfold post_all. simpl. now rewrite app_nil_r. Qed.

Lemma broadcast_loop_eq : forall users message sentCount w,
  broadcast_loop users message sentCount w =
  (Returned (sentCount
             + successes (attempts_from (length (outbox w)) users message)),
   post_all (attempts_from (length (outbox w)) users message) w).
Proof.
  induction users as [| u rest IH]; intros message sentCount w.
  - simpl. unfold ret, successes. simpl. now rewrite Nat.add_0_r, post_all_nil.
  - simpl. unfold bind, sendTelegramMessage. rewrite IH.
    rewrite post_all_cons. unfold post at 1 3. simpl outbox.
    rewrite length_app, Nat.add_1_r. unfold successes. simpl filter.
    destruct (telegram_up (length (outbox w))); simpl length; f_equal; f_equal; lia.
Qed.

Lemma broadcastMessage_eq : forall message w,
  broadcastMessage message w =
  (Returned (successes (attempts_from (length (outbox w)) (subscribers w) message)),
   post_all (attempts_from (length (outbox w)) (subscribers w) message)
     (after_loadUsers w)).
Proof.
  intros. unfold broadcastMessage, bind. rewrite loadUsers_eq, broadcast_loop_eq.
  now rewrite outbox_after_loadUsers.
Qed.

Lemma broadcast_each_eq : forall messages w,
  broadcast_each messages w = (Returned tt, after_broadcasts messages w).
Proof.
  induction messages as [| m rest IH]; intro w; simpl.
  - reflexivity.
  - unfold bind. rewrite broadcastMessage_eq. apply IH.
Qed.

Lemma attempts_from_length : forall users k message,
  length (attempts_from k users message) = length users.
Proof.
  induction users as [| u rest IH]; intros; simpl; [reflexivity | now rewrite IH].
Qed.

Lemma attempts_from_recipients : forall users k message,
  map recipient (attempts_from k users message) = map chatId users.
Proof.
  induction users as [| u rest IH]; intros; simpl; [reflexivity | now rewrite IH].
Qed.

Lemma attempts_from_body : forall users k message,
  Forall (fun d => body d = message) (attempts_from k users message).
Proof.
  induction users as [| u rest IH]; intros; simpl; constructor; auto.
Qed.

Lemma subscribers_post_all : forall ds w,
  subscribers (post_all ds w) = subscribers w.
Proof. reflexivity. Qed.

Lemma after_broadcasts_outbox : forall messages w,
  outbox (after_broadcasts messages w) =
  (outbox w ++ announcements (length (outbox w)) (subscribers w) messages)%list.
Proof.
  induction messages as [| m rest IH]; intro w; simpl.
  - now rewrite app_nil_r.
  - rewrite IH, subscribers_post_all, subscribers_after_loadUsers.
    unfold post_all. simpl outbox. rewrite outbox_after_loadUsers.
    rewrite length_app, attempts_from_length. now rewrite <- app_assoc.
Qed.

Lemma after_broadcasts_subscribers : forall messages w,
  subscribers (after_broadcasts messages w) = subscribers w.
Proof.
  induction messages as [| m rest IH]; intro w; simpl.
  - reflexivity.
  - now rewrite IH, subscribers_post_all, subscribers_after_loadUsers.
Qed.

Lemma after_broadcasts_data_file : forall messages w,
  data_file (after_broadcasts messages w) = data_file w.
Proof.
  induction messages as [| m rest IH]; intro w; simpl.
  - reflexivity.
  - rewrite IH. simpl. apply data_file_after_loadUsers.
Qed.

Lemma after_loadUsers_disk_log : forall w,
  exists loads,
    disk_log (after_loadUsers w) = (disk_log w ++ loads)%list /\
    Forall (fun e => fst e = USERS_FILE) loads.
Proof.
  intro w. unfold after_loadUsers.
  destruct (users_file w);
    try (exists []; split; [now rewrite app_nil_r | constructor]).
  destruct (disk_up (length (disk_log w)));
    eexists; (split; [reflexivity | repeat constructor]).
Qed.

Lemma after_broadcasts_disk_log : forall messages w,
  exists loads,
    disk_log (after_broadcasts messages w) = (disk_log w ++ loads)%list /\
    Forall (fun e => fst e = USERS_FILE) loads.
Proof.
  induction messages as [| m rest IH]; intro w; simpl.
  - exists []. split; [now rewrite app_nil_r | constructor].
  - destruct (IH (post_all (attempts_from (length (outbox w)) (subscribers w) m)
                    (after_loadUsers w))) as (l2 & E2 & F2).
    destruct (after_loadUsers_disk_log w) as (l1 & E1 & F1).
    exists (l1 ++ l2)%list. split.
    + rewrite E2. unfold post_all. cbn [disk_log]. rewrite E1.
      now rewrite app_assoc.
    + apply Forall_app. now split.
Qed.

Lemma saveData_eq : forall data w,
  saveData data w =
  (Returned tt,
   if disk_up (length (disk_log w))
   then set_data_file (Holds (json_price_data data)) (log_write DATA_FILE true w)
   else log_write DATA_FILE false w).
Proof.
  intros. unfold saveData, try_catch, writeFileSync.
  destruct (disk_up (length (disk_log w))); reflexivity.
Qed.

Lemma loadData_eq : forall w,
  loadData w =
  (Returned match data_file w with
            | Holds previous => Some previous
            | Missing | Unreadable | Corrupt => None
            end, w).
Proof.
  intro w. unfold loadData, try_catch, bind, existsSync, readFileSync.
  destruct (data_file w) eqn:E; simpl; try rewrite E; reflexivity.
Qed.

Lemma saveUsers_eq : forall users w,
  saveUsers users w =
  (Returned tt,
   if disk_up (length (disk_log w))
   then set_users_file (Holds users) (log_write USERS_FILE true w)
   else log_write USERS_FILE false w).
Proof.
  intros. unfold saveUsers, try_catch, writeFileSync.
  destruct (disk_up (length (disk_log w))); reflexivity.
Qed.

Lemma price_field_entry : forall payload field,
  no_price_entry payload = true <-> price_field payload field = None.
Proof.
  intros. unfold no_price_entry, price_field.
  destruct (first_entry payload) as [[]|]; simpl; split; intro; congruence.
Qed.

Lemma parse_newData_none : forall payload,
  no_price_entry payload = true -> parse_newData payload = None.
Proof.
  intros payload H. unfold parse_newData.
  apply (price_field_entry payload "hargaJual") in H. now rewrite H.
Qed.

(** A payload parses exactly when its first price-list entry can be read
    and both price fields print. *)
Lemma parse_newData_some : forall payload,
  parse_newData payload <> None <->
  exists entry hargaJual hargaBeli,
    first_entry payload = Some entry /\
    get_prop "hargaJual" entry = Some hargaJual /\
    get_prop "hargaBeli" entry = Some hargaBeli /\
    printable hargaJual = true /\ printable hargaBeli = true.
Proof.
  intro payload. unfold parse_newData, price_field, parseFloat. split.
  - intro H. destruct (first_entry payload) as [entry |]; [| congruence].
    destruct (get_prop "hargaJual" entry) as [hj |] eqn:Ej; [| congruence].
    destruct (printable hj) eqn:Pj; [| congruence].
    destruct (get_prop "hargaBeli" entry) as [hb |] eqn:Eb; [| congruence].
    destruct (printable hb) eqn:Pb; [| congruence].
    exists entry, hj, hb. repeat split; assumption.
  - intros (entry & hj & hb & -> & Ej & Eb & Pj & Pb).
    rewrite Ej, Pj, Eb, Pb.
    destruct entry; simpl in *; congruence.
Qed.

Lemma parse_newData_truthy : forall payload newData,
  parse_newData payload = Some newData -> truthy payload = true.
Proof.
  intros payload newData H.
  destruct payload; try reflexivity; exfalso;
    unfold parse_newData, price_field, first_entry in H; simpl in H;
    try discriminate.
Qed.

(* ================================================================== *)
(** * The detection cycle *)

(** C4: When the price fetch fails, the cycle ends normally after exactly
    one call to Telegram, addressed to the admin identity and carrying the
    error text; no subscriber is written to, neither file changes and the
    disk is not written at all. *)
Theorem fetch_failure_alerts_admin_only :
  forall errorMessage w,
  exists w',
    checkPriceChanges (Failed errorMessage) w = (Returned tt, w') /\
    outbox w' =
      (outbox w ++
       [mkDelivery (StrId ADMIN_CHAT_ID) (fetch_error_message errorMessage)
          (telegram_up (length (outbox w)))])%list /\
    data_file w' = data_file w /\
    users_file w' = users_file w /\
    disk_log w' = disk_log w.
Proof.
  intros errorMessage w. eexists. split.
  - unfold checkPriceChanges, bind, fetchData, sendTelegramMessage. simpl.
    reflexivity.
  - repeat split.
Qed.

(** C3, amended: A payload from which no first price-list entry can be read
    ([data], [priceList] or the entry itself missing) ends the cycle with
    no message to anyone, the admin included, and with both files and the
    disk untouched. *)
Theorem payload_without_price_entry_is_dropped :
  forall payload w,
    no_price_entry payload = true ->
    checkPriceChanges (Replied payload) w = (Returned tt, w).
Proof.
  intros payload w H. apply parse_newData_none in H.
  unfold checkPriceChanges, bind, fetchData, ret, try_catch, lift.
  rewrite H. destruct (truthy payload); reflexivity.
Qed.

(** JSON keeps a finite price other than zero as it is. *)
Lemma json_number_finite : forall n,
  is_finite n = true -> is_zero n = false -> json_number n = Some n.
Proof. intros n Hfin Hzero. unfold json_number. now rewrite Hfin, Hzero. Qed.

(** C2, amended: In a cycle that finds no snapshot (the file is missing,
    unreadable or unparsable), with a payload that parses and a last-update
    field that is a valid date, the candidate is written as parsed, without
    the margin, so that the snapshot file holds it when the write succeeds;
    and the only calls to Telegram are one price-list announcement per
    current subscriber: no price is compared. *)
Theorem first_cycle_saves_and_announces :
  forall payload newData iso w,
    parse_newData payload = Some newData ->
    blank (data_file w) = true ->
    Date_toISOString (lastUpdate newData) = Some iso ->
    exists w',
      checkPriceChanges (Replied payload) w = (Returned tt, w') /\
      data_file w' =
        (if disk_up (length (disk_log w))
         then Holds (json_price_data newData) else data_file w) /\
      outbox w' =
        (outbox w ++
         attempts_from (length (outbox w)) (subscribers w)
           (price_list_message (buyPrice newData) (sellPrice newData)
              (split_head "T" iso)))%list /\
      subscribers w' = subscribers w.
Proof.
  intros payload newData iso w Hparse Hblank Hdate.
  pose proof (parse_newData_truthy _ _ Hparse) as Htruthy.
  eexists. split.
  - unfold checkPriceChanges, fetchData. mred.
    rewrite Htruthy, Hparse. mred.
    rewrite loadData_eq.
    destruct (data_file w) eqn:E; try discriminate Hblank.
    all: mred; rewrite saveData_eq, Hdate; mred.
    all: rewrite broadcastMessage_eq; reflexivity.
  - cbn [outbox data_file post_all].
    rewrite subscribers_post_all, subscribers_after_loadUsers.
    rewrite data_file_after_loadUsers, outbox_after_loadUsers.
    destruct (disk_up (length (disk_log w))); repeat split.
Qed.

(** C1, amended: In a cycle that finds a previous snapshot whose buy and
    sell prices are numbers (the payload parses), the candidate is
    adjusted by subtracting 1000 from the buy price and adding 1000 to the
    sell price; the
    buy-dropped text is broadcast exactly when the adjusted buy price is
    strictly below the previous one, the sell-increased text exactly when
    the adjusted sell price is strictly above the previous one, the former
    before the latter, each to every subscriber; and whether or not
    anything was broadcast the cycle ends by writing the adjusted
    candidate, which the snapshot file holds when that write succeeds
    ([loads] are the attempts of [loadUsers] to create a missing
    subscriber file). *)
Theorem later_cycle_notifies_and_saves :
  forall payload newData previous oldBuy oldSell w,
    parse_newData payload = Some newData ->
    data_file w = Holds previous ->
    Snapshot.buyPrice previous = Some oldBuy ->
    Snapshot.sellPrice previous = Some oldSell ->
    let adjusted := adjust newData in
    let buy_dropped :=
      if (buyPrice adjusted <? oldBuy)%float
      then [buy_dropped_message oldBuy (buyPrice adjusted)] else [] in
    let sell_increased :=
      if (oldSell <? sellPrice adjusted)%float
      then [sell_increased_message oldSell (sellPrice adjusted)] else [] in
    exists w' loads,
      checkPriceChanges (Replied payload) w = (Returned tt, w') /\
      outbox w' =
        (outbox w ++
         announcements (length (outbox w)) (subscribers w)
           (buy_dropped ++ sell_increased))%list /\
      Forall (fun e => fst e = USERS_FILE) loads /\
      let saved := disk_up (length (disk_log w) + length loads) in
      disk_log w' = (disk_log w ++ loads ++ [(DATA_FILE, saved)])%list /\
      data_file w' =
        (if saved then Holds (json_price_data adjusted) else Holds previous) /\
      subscribers w' = subscribers w.
Proof.
  intros payload newData previous oldBuy oldSell w Hparse Hfile Hbuy Hsell.
  pose proof (parse_newData_truthy _ _ Hparse) as Htruthy.
  intros adjusted buy_dropped sell_increased.
  destruct (after_broadcasts_disk_log (buy_dropped ++ sell_increased) w)
    as (loads & Hlog & Hloads).
  exists (snd (saveData adjusted
                 (after_broadcasts (buy_dropped ++ sell_increased) w))), loads.
  split.
  - unfold checkPriceChanges, fetchData. mred.
    rewrite Htruthy, Hparse. mred.
    rewrite loadData_eq, Hfile. mred.
    rewrite Hbuy, Hsell. cbn [to_number buyPrice sellPrice lastUpdate].
    subst buy_dropped sell_increased adjusted. unfold adjust.
    cbn [buyPrice sellPrice lastUpdate].
    destruct (buyPrice newData - 1000 <? oldBuy)%float;
      destruct (oldSell <? sellPrice newData + 1000)%float;
      mred; rewrite broadcast_each_eq; mred; rewrite !saveData_eq;
      reflexivity.
  - rewrite saveData_eq. cbn [snd]. rewrite Hlog, length_app.
    set (saved := disk_up (length (disk_log w) + length loads)).
    pose proof (after_broadcasts_outbox (buy_dropped ++ sell_increased) w) as Hout.
    pose proof (after_broadcasts_subscribers (buy_dropped ++ sell_increased) w)
      as Hsub.
    pose proof (after_broadcasts_data_file (buy_dropped ++ sell_increased) w)
      as Hdata.
    unfold subscribers in Hsub |- *.
    destruct saved;
      cbn [outbox data_file users_file disk_log set_data_file log_write];
      rewrite Hout, Hlog, ?Hdata, ?Hfile, <- app_assoc;
      (split; [reflexivity |]); (split; [exact Hloads |]);
      (split; [reflexivity |]); (split; [reflexivity | exact Hsub]).
Qed.

(* ================================================================== *)
(** * Broadcasting *)

Lemma successes_failures : forall ds,
  successes ds + failures ds = length ds.
Proof.
  unfold successes, failures.
  induction ds as [| d ds IH]; simpl; [reflexivity |].
  destruct (delivered d); simpl; lia.
Qed.

(** C6: A broadcast never raises; it calls Telegram once per subscriber,
    in the order of the store, each time with the message, and returns the
    number of calls that succeeded: with N subscribers and M failed calls,
    N - M. *)
Theorem broadcast_returns_successes :
  forall message w,
  exists attempts w',
    broadcastMessage message w = (Returned (successes attempts), w') /\
    outbox w' = (outbox w ++ attempts)%list /\
    map recipient attempts = map chatId (subscribers w) /\
    Forall (fun d => body d = message) attempts /\
    successes attempts = length (subscribers w) - failures attempts.
Proof.
  intros message w.
  exists (attempts_from (length (outbox w)) (subscribers w) message).
  eexists. split; [apply broadcastMessage_eq |].
  split; [| split; [| split]].
  - unfold post_all. simpl. now rewrite outbox_after_loadUsers.
  - apply attempts_from_recipients.
  - apply attempts_from_body.
  - pose proof (successes_failures
                  (attempts_from (length (outbox w)) (subscribers w) message)) as H.
    rewrite attempts_from_length in H. lia.
Qed.

(* ================================================================== *)
(** * The subscriber store *)

Lemma addUser_eq : forall now id name w,
  addUser now id name w =
  match find (fun user => chat_id_eqb (chatId user) id) (subscribers w) with
  | Some _ => (Returned false, after_loadUsers w)
  | None =>
      (Returned true,
       after_saveUsers (subscribers w ++ [mkUser id name now]) (after_loadUsers w))
  end.
Proof.
  intros. unfold addUser. mred. rewrite loadUsers_eq.
  destruct (find _ (subscribers w)); [reflexivity |].
  rewrite saveUsers_eq. reflexivity.
Qed.

Lemma removeUser_eq : forall id w,
  removeUser id w =
  let kept := filter (fun user => negb (same_chat id user)) (subscribers w) in
  if (length kept <? length (subscribers w))%nat
  then (Returned true, after_saveUsers kept (after_loadUsers w))
  else (Returned false, after_loadUsers w).
Proof.
  intros. unfold removeUser. mred. rewrite loadUsers_eq.
  cbv zeta. unfold same_chat.
  destruct (_ <? _)%nat; [| reflexivity].
  rewrite saveUsers_eq. reflexivity.
Qed.

Lemma find_none_not_in : forall id users,
  find (fun user => chat_id_eqb (chatId user) id) users = None ->
  ~ In id (map chatId users).
Proof.
  intros id users H Hin. apply in_map_iff in Hin as [u [Hu Hin]].
  pose proof (find_none _ _ H u Hin) as Hf. simpl in Hf.
  rewrite Hu, chat_id_eqb_refl in Hf. discriminate.
Qed.

Lemma find_some_of_in : forall id users,
  In id (map chatId users) ->
  exists u, find (fun user => chat_id_eqb (chatId user) id) users = Some u.
Proof.
  intros id users Hin.
  destruct (find _ users) eqn:E; [eauto |].
  now apply find_none_not_in in E.
Qed.

Lemma NoDup_map_filter : forall (p : user -> bool) users,
  NoDup (map chatId users) -> NoDup (map chatId (filter p users)).
Proof.
  induction users as [| u rest IH]; simpl; intro H; [constructor |].
  inversion H as [| x l Hnotin Hrest]; subst.
  destruct (p u); simpl; [constructor |]; auto.
  intro Hin. apply Hnotin. apply in_map_iff in Hin as [v [Hv Hin]].
  apply filter_In in Hin as [Hin _]. apply in_map_iff. eauto.
Qed.

Lemma identities_after_loadUsers : forall w,
  identities (after_loadUsers w) = identities w.
Proof. intro w. unfold identities. now rewrite subscribers_after_loadUsers. Qed.

Lemma identities_after_saveUsers : forall users w,
  identities (after_saveUsers users w) = map chatId users \/
  identities (after_saveUsers users w) = identities w.
Proof.
  intros. unfold after_saveUsers.
  destruct (disk_up _); [left | right]; reflexivity.
Qed.

Lemma apply_op_keeps_NoDup : forall id op w,
  NoDup (identities w) -> NoDup (identities (snd (apply_op id op w))).
Proof.
  intros id [now name |] w H; simpl.
  - rewrite addUser_eq.
    destruct (find _ (subscribers w)) eqn:E; simpl.
    + now rewrite identities_after_loadUsers.
    + destruct (identities_after_saveUsers
                  (subscribers w ++ [mkUser id name now]) (after_loadUsers w))
        as [-> | ->].
      * rewrite map_app. simpl.
        apply NoDup_app; [exact H | repeat constructor; intros [] |].
        intros x Hx [<- | []]. now apply find_none_not_in in E.
      * now rewrite identities_after_loadUsers.
  - rewrite removeUser_eq. cbv zeta.
    destruct (_ <? _)%nat; simpl.
    + destruct (identities_after_saveUsers
                  (filter (fun user => negb (same_chat id user)) (subscribers w))
                  (after_loadUsers w)) as [-> | ->].
      * now apply NoDup_map_filter.
      * now rewrite identities_after_loadUsers.
    + now rewrite identities_after_loadUsers.
Qed.

(** C5: Starting from a store in which no identity occurs twice, after
    every call of any sequence of add and remove calls on one identity the
    store still holds no identity twice; and add on an identity already in
    the store returns false and changes nothing. *)
Theorem store_never_holds_duplicates :
  forall id,
    (forall ops w,
       NoDup (identities w) ->
       Forall (fun w' => NoDup (identities w')) (run_ops id ops w)) /\
    (forall now name w,
       In id (identities w) ->
       addUser now id name w = (Returned false, w)).
Proof.
  intro id. split.
  - induction ops as [| op rest IH]; intros w H; simpl; constructor.
    + now apply apply_op_keeps_NoDup.
    + apply IH. now apply apply_op_keeps_NoDup.
  - intros now name w Hin. rewrite addUser_eq.
    destruct (find_some_of_in _ _ Hin) as [u ->].
    unfold identities, subscribers in Hin.
    destruct (users_file w) eqn:E; try contradiction.
    now rewrite (after_loadUsers_holds _ _ E).
Qed.

Lemma filter_absent : forall id users,
  ~ In id (map chatId users) ->
  filter (fun user => negb (same_chat id user)) users = users.
Proof.
  induction users as [| u rest IH]; simpl; intro H; [reflexivity |].
  unfold same_chat at 1.
  destruct (chat_id_eqb (chatId u) id) eqn:E; simpl.
  - apply chat_id_eqb_eq in E. tauto.
  - rewrite IH; tauto.
Qed.

Lemma filter_present : forall id users,
  In id (map chatId users) ->
  (length (filter (fun user => negb (same_chat id user)) users) < length users)%nat.
Proof.
  induction users as [| u rest IH]; simpl; intro H; [contradiction |].
  pose proof (filter_length_le (fun user => negb (same_chat id user)) rest) as Hle.
  unfold same_chat at 1.
  destruct (chat_id_eqb (chatId u) id) eqn:E; simpl; [lia |].
  destruct H as [H | H].
  - subst id. rewrite chat_id_eqb_refl in E. discriminate.
  - specialize (IH H). lia.
Qed.

Lemma filter_one_record : forall id users,
  NoDup (map chatId users) ->
  In id (map chatId users) ->
  length users = S (length (filter (fun user => negb (same_chat id user)) users)).
Proof.
  induction users as [| u rest IH]; simpl; intros Hnd Hin; [contradiction |].
  inversion Hnd as [| x l Hnotin Hrest]; subst.
  unfold same_chat at 1.
  destruct (chat_id_eqb (chatId u) id) eqn:E; simpl.
  - apply chat_id_eqb_eq in E. subst id. now rewrite filter_absent.
  - destruct Hin as [H | H].
    + subst id. rewrite chat_id_eqb_refl in E. discriminate.
    + now rewrite <- IH.
Qed.

(** C9: For an identity that is not in the store, remove returns false and
    the collection read afterwards is the one read before (a store file
    that exists is left exactly as it was).  For an identity in the store,
    when the disk takes the write, remove returns true and replaces the
    stored collection by the same records, in the same order, without those
    of that identity: exactly one record when the store holds no
    identity twice. *)
Theorem removeUser_deletes_the_record :
  forall id w,
    (~ In id (identities w) ->
     exists w',
       removeUser id w = (Returned false, w') /\
       subscribers w' = subscribers w /\
       (forall users, users_file w = Holds users -> w' = w)) /\
    (In id (identities w) ->
     disk_up (length (disk_log w)) = true ->
     exists w',
       removeUser id w = (Returned true, w') /\
       users_file w' =
         Holds (filter (fun user => negb (same_chat id user)) (subscribers w)) /\
       disk_log w' = (disk_log w ++ [(USERS_FILE, true)])%list /\
       (NoDup (identities w) ->
        length (subscribers w) = S (length (subscribers w')))).
Proof.
  intros id w. split.
  - intro Hnotin. exists (after_loadUsers w). rewrite removeUser_eq. cbv zeta.
    rewrite (filter_absent _ _ Hnotin), Nat.ltb_irrefl.
    split; [reflexivity |]. split; [apply subscribers_after_loadUsers |].
    intros users E. now apply after_loadUsers_holds with users.
  - intros Hin Hdisk. rewrite removeUser_eq. cbv zeta.
    pose proof (filter_present _ _ Hin) as Hlt. apply Nat.ltb_lt in Hlt.
    rewrite Hlt.
    unfold identities, subscribers in Hin.
    destruct (users_file w) as [| | | users] eqn:E; try contradiction.
    rewrite (after_loadUsers_holds _ _ E). unfold after_saveUsers.
    rewrite Hdisk. eexists. split; [reflexivity |].
    unfold identities, subscribers. simpl. rewrite E.
    repeat split. intro Hnd. now apply filter_one_record.
Qed.

(* ================================================================== *)
(** * Reading the two stores *)

Lemma isUserSubscribed_eq : forall id w,
  isUserSubscribed id w =
  (Returned (existsb (same_chat id) (subscribers w)), after_loadUsers w).
Proof.
  intros. unfold isUserSubscribed. mred. now rewrite loadUsers_eq.
Qed.

Lemma blank_subscribers : forall w,
  blank (users_file w) = true -> subscribers w = [].
Proof.
  intros w H. unfold subscribers. now destruct (users_file w).
Qed.

Lemma broadcastMessage_snapshot : forall message f w,
  broadcastMessage message (set_data_file f w) =
  (fst (broadcastMessage message w),
   set_data_file f (snd (broadcastMessage message w))).
Proof.
  intros. rewrite !broadcastMessage_eq. simpl fst. simpl snd.
  unfold after_loadUsers, subscribers, post_all. simpl.
  destruct (users_file w); try reflexivity.
  destruct (disk_up (length (disk_log w))); reflexivity.
Qed.

Lemma blank_cycle_as_missing : forall r w,
  blank (data_file w) = true ->
  fst (checkPriceChanges r w) =
    fst (checkPriceChanges r (set_data_file Missing w)) /\
  same_but_snapshot (snd (checkPriceChanges r w))
    (snd (checkPriceChanges r (set_data_file Missing w))) /\
  (data_file (snd (checkPriceChanges r w)) =
     data_file (snd (checkPriceChanges r (set_data_file Missing w))) \/
   data_file (snd (checkPriceChanges r w)) = data_file w /\
   data_file (snd (checkPriceChanges r (set_data_file Missing w))) = Missing).
Proof.
  intros r w Hblank. unfold same_but_snapshot.
  destruct r as [errorMessage | payload].
  - simpl. repeat split. now right.
  - unfold checkPriceChanges, fetchData. mred.
    destruct (truthy payload); [| simpl; repeat split; now right].
    destruct (parse_newData payload) as [newData |];
      [| simpl; repeat split; now right].
    mred. rewrite !loadData_eq.
    replace (data_file (set_data_file Missing w)) with (@Missing Snapshot.t)
      by reflexivity.
    destruct (data_file w) eqn:E; try discriminate Hblank.
    all: mred; rewrite !saveData_eq.
    all: replace (disk_log (set_data_file Missing w)) with (disk_log w)
           by reflexivity.
    all: destruct (disk_up (length (disk_log w))).
    all: try (replace (set_data_file (Holds (json_price_data newData))
                         (log_write DATA_FILE true (set_data_file Missing w)))
                with (set_data_file (Holds (json_price_data newData))
                        (log_write DATA_FILE true w)) by reflexivity;
              repeat split; now left).
    all: destruct (Date_toISOString (lastUpdate newData)) as [iso |];
           [| simpl; rewrite E; repeat split; now right].
    all: mred.
    all: replace (log_write DATA_FILE false (set_data_file Missing w))
           with (set_data_file Missing (log_write DATA_FILE false w))
           by reflexivity.
    all: rewrite broadcastMessage_snapshot.
    all: destruct (broadcastMessage _ (log_write DATA_FILE false w))
           as [[n | e] w1] eqn:B; simpl.
    all: rewrite broadcastMessage_eq in B; inversion B; subst.
    all: simpl; rewrite data_file_after_loadUsers; simpl; rewrite E.
    all: repeat split; now right.
Qed.

(** C10: Reading either store never raises.  When the subscriber file is
    missing, unreadable or unparsable, the collection read is empty, so
    that nobody counts as subscribed and a broadcast calls nobody and
    returns 0.  When the snapshot file is missing, unreadable or
    unparsable, the snapshot read is absent, and a detection cycle then
    ends as it does from a missing file: same result, same calls to
    Telegram, same writes, and the same snapshot file when its write
    succeeds. *)
Theorem reads_are_total :
  forall w,
    (exists w', loadUsers w = (Returned (subscribers w), w')) /\
    (blank (users_file w) = true ->
     subscribers w = [] /\
     (forall id, exists w', isUserSubscribed id w = (Returned false, w')) /\
     (forall message, exists w',
        broadcastMessage message w = (Returned 0, w') /\ outbox w' = outbox w)) /\
    (exists previous,
       loadData w = (Returned previous, w) /\
       (blank (data_file w) = true -> previous = None)) /\
    (blank (data_file w) = true ->
     forall r,
       fst (checkPriceChanges r w) =
         fst (checkPriceChanges r (set_data_file Missing w)) /\
       same_but_snapshot (snd (checkPriceChanges r w))
         (snd (checkPriceChanges r (set_data_file Missing w))) /\
       (data_file (snd (checkPriceChanges r w)) =
          data_file (snd (checkPriceChanges r (set_data_file Missing w))) \/
        data_file (snd (checkPriceChanges r w)) = data_file w /\
        data_file (snd (checkPriceChanges r (set_data_file Missing w))) = Missing)).
Proof.
  intro w. split; [| split; [| split]].
  - eexists. apply loadUsers_eq.
  - intro Hblank. pose proof (blank_subscribers _ Hblank) as Hnone.
    split; [exact Hnone |]. split.
    + intro id. eexists. rewrite isUserSubscribed_eq, Hnone. reflexivity.
    + intro message. eexists. rewrite broadcastMessage_eq, Hnone. simpl.
      split; [reflexivity |]. rewrite post_all_nil. apply outbox_after_loadUsers.
  - eexists. split; [apply loadData_eq |].
    intro Hblank. now destruct (data_file w).
  - intros Hblank r. now apply blank_cycle_as_missing.
Qed.

(* ================================================================== *)
(** * The broadcast command *)

Lemma expand_no_dollar : forall repl matched before after,
  no_dollar repl = true -> expand repl matched before after = repl.
Proof.
  induction repl as [| c r IH]; intros matched before after H; [reflexivity |].
  simpl in H. apply andb_true_iff in H as [Hc Hr].
  apply negb_true_iff in Hc. simpl. rewrite Hc. now rewrite IH.
Qed.




Lemma command_text : forall text command,
  split_head " " text = String "/" command ->
  startsWith text "/" = true /\ or_else (Some text) "" = text.
Proof.
  intros [| c r] command H; simpl in H; [discriminate |].
  destruct (Ascii.eqb c " "); [discriminate |].
  injection H as -> _. split; reflexivity.
Qed.


(* ================================================================== *)
(** * What a detection cycle never does *)

Lemma attempts_from_known : forall users k message,
  Forall (fun d => In (recipient d) (map chatId users))
    (attempts_from k users message).
Proof.
  induction users as [| u rest IH]; intros k message; simpl; constructor.
  - now left.
  - eapply Forall_impl; [| apply IH]. intros d Hd. now right.
Qed.

Lemma announcements_known : forall messages k users,
  Forall (fun d => In (recipient d) (map chatId users))
    (announcements k users messages).
Proof.
  induction messages as [| m rest IH]; intros k users; simpl.
  - constructor.
  - apply Forall_app. split; [apply attempts_from_known | apply IH].
Qed.

Lemma saveData_frame : forall data w,
  outbox (snd (saveData data w)) = outbox w /\
  users_file (snd (saveData data w)) = users_file w.
Proof.
  intros. rewrite saveData_eq. cbn [snd].
  destruct (disk_up (length (disk_log w))); split; reflexivity.
Qed.

Lemma broadcastMessage_frame : forall message w,
  outbox (snd (broadcastMessage message w)) =
    (outbox w ++ attempts_from (length (outbox w)) (subscribers w) message)%list /\
  subscribers (snd (broadcastMessage message w)) = subscribers w /\
  data_file (snd (broadcastMessage message w)) = data_file w.
Proof.
  intros. rewrite broadcastMessage_eq. cbn [snd].
  rewrite subscribers_post_all, subscribers_after_loadUsers.
  unfold post_all. cbn [outbox data_file].
  now rewrite outbox_after_loadUsers, data_file_after_loadUsers.
Qed.

(** What every detection cycle does, whatever it is given. *)
Lemma cycle_effects : forall r w,
  fst (checkPriceChanges r w) = Returned tt /\
  subscribers (snd (checkPriceChanges r w)) = subscribers w /\
  exists ds,
    outbox (snd (checkPriceChanges r w)) = (outbox w ++ ds)%list /\
    match r with
    | Failed _ =>
        exists d, ds = [d] /\ recipient d = StrId ADMIN_CHAT_ID
    | Replied _ =>
        Forall (fun d => In (recipient d) (identities w)) ds
    end.
Proof.
  intros r w.
  assert (Hsame : fst (ret tt w) = Returned tt /\
                  subscribers (snd (ret tt w)) = subscribers w /\
                  exists ds, outbox (snd (ret tt w)) = (outbox w ++ ds)%list /\
                    Forall (fun d => In (recipient d) (identities w)) ds).
  { split; [reflexivity |]. split; [reflexivity |].
    exists []. split; [now rewrite app_nil_r | constructor]. }
  destruct r as [errorMessage | payload].
  - split; [reflexivity |]. split; [reflexivity |].
    eexists. split; [reflexivity |]. eexists. split; reflexivity.
  - unfold checkPriceChanges, fetchData. mred.
    destruct (truthy payload); [| exact Hsame].
    destruct (parse_newData payload) as [newData |]; [| exact Hsame].
    mred. rewrite loadData_eq.
    destruct (data_file w) as [| | | previous] eqn:E.
    1-3: mred; rewrite saveData_eq;
      set (w1 := if disk_up (length (disk_log w)) then _ else _);
      assert (Hw1 : outbox w1 = outbox w /\ users_file w1 = users_file w)
        by (subst w1; destruct (disk_up (length (disk_log w))); split; reflexivity);
      destruct Hw1 as [Hout Husers];
      assert (Hsub : subscribers w1 = subscribers w)
        by (unfold subscribers; now rewrite Husers);
      (destruct (Date_toISOString (lastUpdate newData)) as [iso |]; mred;
       [ rewrite broadcastMessage_eq; cbn [fst snd];
         rewrite subscribers_post_all, subscribers_after_loadUsers, Hsub;
         split; [reflexivity |]; split; [reflexivity |];
         eexists; split;
         [ unfold post_all; cbn [outbox];
           rewrite outbox_after_loadUsers, Hout; reflexivity
         | apply attempts_from_known ]
       | cbn [fst snd]; split; [reflexivity |]; split; [exact Hsub |];
         exists []; split; [now rewrite app_nil_r | constructor] ]).
    mred. cbn [buyPrice sellPrice lastUpdate].
    set (adjusted := mkPriceData _ _ _).
    assert (Hdone : forall messages,
      let run :=
        try_catch (bind (broadcast_each messages) (fun _ => saveData adjusted))
          (fun _ => ret tt) w in
      fst run = Returned tt /\
      subscribers (snd run) = subscribers w /\
      exists ds,
        outbox (snd run) = (outbox w ++ ds)%list /\
        Forall (fun d => In (recipient d) (identities w)) ds).
    { intros messages run. subst run. unfold try_catch, bind.
      rewrite broadcast_each_eq.
      destruct (saveData_frame adjusted (after_broadcasts messages w))
        as [Hout Husers].
      rewrite saveData_eq in *. cbn [fst snd] in *.
      split; [reflexivity |]. split.
      - unfold subscribers at 1. rewrite Husers.
        apply after_broadcasts_subscribers.
      - eexists. split.
        + rewrite Hout. apply after_broadcasts_outbox.
        + apply announcements_known. }
    cbv beta iota zeta delta [bind ret throw try_catch] in Hdone.
    destruct (Snapshot.buyPrice previous) as [oldBuy |],
             (Snapshot.sellPrice previous) as [oldSell |];
      cbn [to_number];
      repeat match goal with
             | |- context [if ?c then _ else _] => destruct c
             end;
      mred; try exact Hsame; apply Hdone.
Qed.

(** X1: A detection cycle never raises: whatever the price source
    returns, and whatever the two files hold, [checkPriceChanges] ends
    normally. *)
Theorem cycle_never_raises : forall r w,
  fst (checkPriceChanges r w) = Returned tt.
Proof. intros r w. apply cycle_effects. Qed.

(** X2: A detection cycle never changes the subscriber collection. *)
Theorem cycle_keeps_the_subscribers : forall r w,
  subscribers (snd (checkPriceChanges r w)) = subscribers w.
Proof. intros r w. apply cycle_effects. Qed.

(** X3: When the price source answers, every call to Telegram made by the
    cycle is addressed to a subscriber of the store: the admin identity,
    or anybody else, is written to only as a subscriber. *)
Theorem cycle_writes_to_subscribers_only : forall payload w,
  exists ds,
    outbox (snd (checkPriceChanges (Replied payload) w)) = (outbox w ++ ds)%list /\
    Forall (fun d => In (recipient d) (identities w)) ds.
Proof.
  intros payload w.
  destruct (cycle_effects (Replied payload) w) as (_ & _ & ds & Hout & Hds).
  now exists ds.
Qed.

(* ================================================================== *)
(** * Comparisons of prices *)

Lemma SFcompare_refl : forall s,
  SFcompare s s = Some Eq \/ SFcompare s s = None.
Proof.
  intros [sg | sg | | sg m e]; simpl; auto.
  - destruct sg; auto.
  - rewrite Z.compare_refl, Pos.compare_cont_refl. destruct sg; auto.
Qed.

Lemma ltb_irrefl : forall x : float, (x <? x)%float = false.
Proof.
  intro x. rewrite ltb_spec. unfold SFltb.
  destruct (SFcompare_refl (Prim2SF x)) as [-> | ->]; reflexivity.
Qed.

Lemma SFcompare_zero : forall s,
  SFcompare s (S754_zero false) = Some Eq ->
  SFcompare (S754_zero false) s = Some Eq.
Proof.
  intros [sg | sg | | sg m e]; simpl; intro H; try discriminate; auto.
  - destruct sg; discriminate.
  - destruct sg; discriminate.
Qed.

Lemma is_zero_not_below : forall x : float,
  is_zero x = true -> (x <? zero)%float = false /\ (zero <? x)%float = false.
Proof.
  intros x H. unfold is_zero in H. rewrite eqb_spec in H.
  rewrite !ltb_spec. unfold SFeqb in H. unfold SFltb.
  change (Prim2SF zero) with (S754_zero false) in *.
  destruct (SFcompare (Prim2SF x) (S754_zero false)) as [[| |] |] eqn:E;
    try discriminate.
  now rewrite (SFcompare_zero _ E).
Qed.

(** A number is neither below nor above what JSON keeps of it. *)
Lemma json_number_not_apart : forall x y : float,
  json_number x = Some y ->
  (x <? y)%float = false /\ (y <? x)%float = false.
Proof.
  intros x y H. unfold json_number in H.
  destruct (is_finite x); [| discriminate].
  destruct (is_zero x) eqn:Z; injection H as <-.
  - now apply is_zero_not_below.
  - split; apply ltb_irrefl.
Qed.

Lemma json_number_is_finite : forall x : float,
  is_finite x = true -> exists y, json_number x = Some y.
Proof. intros x H. unfold json_number. rewrite H. eauto. Qed.

(* ================================================================== *)
(** * Cycles one after another *)

(** X4: When the snapshot file holds what a cycle wrote for a payload
    (the adjusted candidate, its prices finite), a cycle on the same
    payload calls nobody and leaves the subscribers and the content of the
    snapshot file as they are: the same prices are not announced twice. *)
Theorem repeated_payload_is_silent :
  forall payload newData w,
    parse_newData payload = Some newData ->
    is_finite (buyPrice (adjust newData)) = true ->
    is_finite (sellPrice (adjust newData)) = true ->
    data_file w = Holds (json_price_data (adjust newData)) ->
    exists w',
      checkPriceChanges (Replied payload) w = (Returned tt, w') /\
      outbox w' = outbox w /\
      data_file w' = data_file w /\
      users_file w' = users_file w.
Proof.
  intros payload newData w Hparse Hbuy Hsell Hfile.
  pose proof (parse_newData_truthy _ _ Hparse) as Htruthy.
  destruct (json_number_is_finite _ Hbuy) as [oldBuy Eb].
  destruct (json_number_is_finite _ Hsell) as [oldSell Es].
  destruct (json_number_not_apart _ _ Eb) as [Hb _].
  destruct (json_number_not_apart _ _ Es) as [_ Hs].
  eexists. split.
  - unfold checkPriceChanges, fetchData. mred.
    rewrite Htruthy, Hparse. mred.
    rewrite loadData_eq, Hfile. mred.
    unfold json_price_data. cbn [Snapshot.buyPrice Snapshot.sellPrice].
    rewrite Eb, Es. cbn [to_number].
    unfold adjust in Hb, Hs. cbn [buyPrice sellPrice] in *.
    rewrite Hb, Hs. mred. rewrite broadcast_each_eq. mred.
    rewrite saveData_eq. reflexivity.
  - cbn [after_broadcasts]. fold (adjust newData).
    split; [| split]; destruct (disk_up (length (disk_log w))); cbn;
      rewrite ?Hfile; reflexivity.
Qed.

Lemma null_sell_price_blocks : forall payload newData previous w,
  parse_newData payload = Some newData ->
  data_file w = Holds previous ->
  Snapshot.sellPrice previous = None ->
  (zero <? sellPrice (adjust newData))%float = true ->
  checkPriceChanges (Replied payload) w = (Returned tt, w).
Proof.
  intros payload newData previous w Hparse Hfile Hnull Hsell.
  pose proof (parse_newData_truthy _ _ Hparse) as Htruthy.
  unfold checkPriceChanges, fetchData. mred.
  rewrite Htruthy, Hparse. mred.
  rewrite loadData_eq, Hfile. mred.
  rewrite Hnull. cbn [to_number]. unfold adjust in Hsell.
  cbn [buyPrice sellPrice] in *. rewrite Hsell.
  destruct (Snapshot.buyPrice previous) as [oldBuy |]; cbn [to_number];
    destruct (buyPrice newData - 1000 <? _)%float; reflexivity.
Qed.

(** X5: Once the snapshot file holds a [null] sell price, a cycle whose
    adjusted sell price is above zero changes nothing at all: it raises
    while it renders the old price, before it broadcasts or saves, so the
    snapshot is never replaced. *)
Theorem null_price_blocks_the_cycle :
  forall payload newData previous w,
    parse_newData payload = Some newData ->
    data_file w = Holds previous ->
    Snapshot.sellPrice previous = None ->
    (zero <? sellPrice (adjust newData))%float = true ->
    checkPriceChanges (Replied payload) w = (Returned tt, w).
Proof.
  intros payload newData previous w. apply null_sell_price_blocks.
Qed.

(** X6: A first cycle whose sell price is not a finite number (a
    non-numeric [hargaBeli]) writes a [null] sell price; if that write
    succeeds, every later cycle with a sell price above -1000 leaves the
    world as it is: no notification and no new snapshot, whatever the
    prices do. *)
Theorem non_finite_price_silences_the_bot :
  forall payload newData w later laterData,
    parse_newData payload = Some newData ->
    blank (data_file w) = true ->
    disk_up (length (disk_log w)) = true ->
    is_finite (sellPrice newData) = false ->
    parse_newData later = Some laterData ->
    (zero <? sellPrice (adjust laterData))%float = true ->
    let w1 := snd (checkPriceChanges (Replied payload) w) in
    Snapshot.sellPrice (json_price_data newData) = None /\
    data_file w1 = Holds (json_price_data newData) /\
    checkPriceChanges (Replied later) w1 = (Returned tt, w1).
Proof.
  intros payload newData w later laterData Hparse Hblank Hdisk Hnan Hlater Hsell w1.
  assert (Hnull : Snapshot.sellPrice (json_price_data newData) = None).
  { unfold json_price_data, json_number. cbn. now rewrite Hnan. }
  assert (Hfile : data_file w1 = Holds (json_price_data newData)).
  { subst w1. pose proof (parse_newData_truthy _ _ Hparse) as Htruthy.
    unfold checkPriceChanges, fetchData. mred.
    rewrite Htruthy, Hparse. mred. rewrite loadData_eq.
    destruct (data_file w) eqn:E; try discriminate Hblank.
    all: mred; rewrite saveData_eq, Hdisk.
    all: destruct (Date_toISOString (lastUpdate newData)); mred;
      [rewrite broadcastMessage_eq; cbn; now rewrite data_file_after_loadUsers
      | reflexivity]. }
  split; [exact Hnull |]. split; [exact Hfile |].
  now apply null_sell_price_blocks with laterData (json_price_data newData).
Qed.

(* ================================================================== *)
(** * Restarting *)

Lemma deleteDataFile_eq : forall unlinked w,
  deleteDataFile unlinked w =
  (Returned tt,
   match data_file w with
   | Missing => w
   | Unreadable | Corrupt | Holds _ =>
       if unlinked then set_data_file Missing w else w
   end).
Proof.
  intros unlinked w.
  unfold deleteDataFile, try_catch, bind, existsSync, unlinkSync.
  destruct (data_file w); try reflexivity; destruct unlinked; reflexivity.
Qed.

Lemma cycle_from_blank : forall payload newData iso w,
  parse_newData payload = Some newData ->
  blank (data_file w) = true ->
  Date_toISOString (lastUpdate newData) = Some iso ->
  checkPriceChanges (Replied payload) w =
  (Returned tt,
   snd (broadcastMessage
          (price_list_message (buyPrice newData) (sellPrice newData)
             (split_head "T" iso))
          (snd (saveData newData w)))).
Proof.
  intros payload newData iso w Hparse Hblank Hdate.
  pose proof (parse_newData_truthy _ _ Hparse) as Htruthy.
  unfold checkPriceChanges, fetchData. mred.
  rewrite Htruthy, Hparse. mred. rewrite loadData_eq.
  destruct (data_file w) eqn:E; try discriminate Hblank.
  all: mred; rewrite !saveData_eq, Hdate; mred.
  all: cbn [snd]; rewrite !broadcastMessage_eq; reflexivity.
Qed.

(** X7: The first check after a start in which the old snapshot file was
    deleted never compares prices: whatever the file held, the price list
    is announced once to every subscriber and the candidate is written
    without the margin.  When the file could not be deleted, the first
    check is an ordinary cycle. *)
Theorem restart_announces_the_price_list :
  forall payload newData iso w,
    parse_newData payload = Some newData ->
    Date_toISOString (lastUpdate newData) = Some iso ->
    (exists w',
       first_check true (Replied payload) w = (Returned tt, w') /\
       outbox w' =
         (outbox w ++
          attempts_from (length (outbox w)) (subscribers w)
            (price_list_message (buyPrice newData) (sellPrice newData)
               (split_head "T" iso)))%list /\
       data_file w' =
         (if disk_up (length (disk_log w))
          then Holds (json_price_data newData) else Missing) /\
       subscribers w' = subscribers w) /\
    first_check false (Replied payload) w = checkPriceChanges (Replied payload) w.
Proof.
  intros payload newData iso w Hparse Hdate. split.
  - unfold first_check, bind. rewrite deleteDataFile_eq.
    set (w0 := match data_file w with Missing => w | _ => set_data_file Missing w end).
    assert (H0 : data_file w0 = Missing /\ outbox w0 = outbox w /\
                 users_file w0 = users_file w /\ disk_log w0 = disk_log w).
    { subst w0. destruct (data_file w) eqn:E; repeat split; assumption. }
    destruct H0 as (Hfile & Hout & Husers & Hlog).
    replace (match data_file w with
             | Missing => w
             | _ => if true then set_data_file Missing w else w
             end) with w0 by (subst w0; now destruct (data_file w)).
    rewrite (cycle_from_blank payload newData iso w0 Hparse)
      by (try assumption; now rewrite Hfile).
    eexists. split; [reflexivity |].
    destruct (broadcastMessage_frame
                (price_list_message (buyPrice newData) (sellPrice newData)
                   (split_head "T" iso))
                (snd (saveData newData w0))) as (Ho & Hs & Hd).
    destruct (saveData_frame newData w0) as [Hso Hsu].
    rewrite Ho, Hs, Hd, Hso, Hout. unfold subscribers at 1 2 3.
    rewrite Hsu, Husers. split; [reflexivity |]. split; [| reflexivity].
    rewrite saveData_eq, Hlog. cbn [snd].
    destruct (disk_up (length (disk_log w))); cbn; [reflexivity | exact Hfile].
  - unfold first_check, bind. rewrite deleteDataFile_eq.
    now destruct (data_file w).
Qed.

(* ================================================================== *)
(** * Writing and reading back the snapshot *)

Lemma finite_eqb_refl : forall x : float,
  is_finite x = true -> (x =? x)%float = true.
Proof.
  intros x H. unfold is_finite, is_nan in H.
  destruct (x =? x)%float; [reflexivity | discriminate].
Qed.

Lemma json_number_same : forall x y : float,
  json_number x = Some y -> (y =? x)%float = true.
Proof.
  intros x y H. unfold json_number in H.
  destruct (is_finite x) eqn:F; [| discriminate].
  destruct (is_zero x) eqn:Z; injection H as <-.
  - unfold is_zero in Z. rewrite eqb_spec in *. unfold SFeqb in *.
    change (Prim2SF zero) with (S754_zero false) in *.
    destruct (SFcompare (Prim2SF x) (S754_zero false)) as [[| |] |] eqn:E;
      try discriminate.
    now rewrite (SFcompare_zero _ E).
  - now apply finite_eqb_refl.
Qed.

(** X8: What [loadData] reads after [saveData data], when the write
    succeeds, is the data as JSON keeps it: a finite price reads back
    as a number equal to it, a price that is NaN or infinite reads back as
    [null].  When the write fails, [loadData] reads what it read before. *)
Theorem saved_data_reads_back :
  forall data w,
    (disk_up (length (disk_log w)) = true ->
     exists s w',
       bind (saveData data) (fun _ => loadData) w = (Returned (Some s), w') /\
       (is_finite (buyPrice data) = true ->
        exists n, Snapshot.buyPrice s = Some n /\ (n =? buyPrice data)%float = true) /\
       (is_finite (buyPrice data) = false -> Snapshot.buyPrice s = None) /\
       (is_finite (sellPrice data) = true ->
        exists n, Snapshot.sellPrice s = Some n /\ (n =? sellPrice data)%float = true) /\
       (is_finite (sellPrice data) = false -> Snapshot.sellPrice s = None)) /\
    (disk_up (length (disk_log w)) = false ->
     fst (bind (saveData data) (fun _ => loadData) w) = fst (loadData w)).
Proof.
  intros data w. split; intro Hdisk.
  - exists (json_price_data data). eexists. split.
    + unfold bind. rewrite saveData_eq, Hdisk, loadData_eq. reflexivity.
    + unfold json_price_data. cbn [Snapshot.buyPrice Snapshot.sellPrice].
      repeat split; intro H.
      * destruct (json_number_is_finite _ H) as [n E]. exists n.
        split; [exact E | now apply json_number_same].
      * unfold json_number. now rewrite H.
      * destruct (json_number_is_finite _ H) as [n E]. exists n.
        split; [exact E | now apply json_number_same].
      * unfold json_number. now rewrite H.
  - unfold bind. rewrite saveData_eq, Hdisk, !loadData_eq. reflexivity.
Qed.

(* ================================================================== *)
(** * What an inbound message can reach *)

Lemma effects_refl : forall id P w, effects id P w w.
Proof.
  intros. split; [reflexivity |]. split; [reflexivity |].
  exists []. split; [now rewrite app_nil_r | constructor].
Qed.

Lemma effects_trans : forall id P w1 w2 w3,
  effects id P w1 w2 -> effects id P w2 w3 -> effects id P w1 w3.
Proof.
  intros id P w1 w2 w3 (Hd1 & Hs1 & ds1 & Ho1 & Hp1) (Hd2 & Hs2 & ds2 & Ho2 & Hp2).
  split; [congruence |]. split; [congruence |].
  exists (ds1 ++ ds2)%list. split.
  - now rewrite Ho2, Ho1, app_assoc.
  - apply Forall_app. now split.
Qed.

Lemma effects_post : forall id (P : delivery -> Prop) d w,
  P d -> effects id P w (post d w).
Proof.
  intros id P d w Hd. split; [reflexivity |]. split; [reflexivity |].
  exists [d]. split; [reflexivity | now constructor].
Qed.

Lemma effects_loadUsers : forall id P w, effects id P w (after_loadUsers w).
Proof.
  intros. split; [apply data_file_after_loadUsers |].
  split; [now rewrite subscribers_after_loadUsers |].
  exists []. split; [now rewrite app_nil_r, outbox_after_loadUsers | constructor].
Qed.

Lemma effects_saveUsers : forall id P users w,
  others id users = others id (subscribers w) ->
  effects id P w (after_saveUsers users w).
Proof.
  intros id P users w H. unfold after_saveUsers.
  destruct (disk_up (length (disk_log w)));
    (split; [reflexivity |]; split;
     [| exists []; split; [cbn; now rewrite app_nil_r | constructor]]).
  - exact H.
  - reflexivity.
Qed.

Lemma effects_broadcast : forall id (P : delivery -> Prop) message w,
  (forall d, In (recipient d) (identities w) -> P d) ->
  effects id P w (snd (broadcastMessage message w)).
Proof.
  intros id P message w HP.
  destruct (broadcastMessage_frame message w) as (Ho & Hs & Hd).
  split; [exact Hd |]. split; [now rewrite Hs |].
  eexists. split; [exact Ho |].
  eapply Forall_impl; [| apply attempts_from_known]. exact HP.
Qed.

Lemma others_twice : forall id users,
  others id (others id users) = others id users.
Proof.
  intros id users. unfold others.
  induction users as [| u rest IH]; simpl; [reflexivity |].
  destruct (negb (same_chat id u)) eqn:E; simpl; rewrite ?E, IH; reflexivity.
Qed.

Lemma others_new : forall id users name now,
  others id (users ++ [mkUser id name now]) = others id users.
Proof.
  intros. unfold others. rewrite filter_app. simpl.
  unfold same_chat at 2. simpl. rewrite chat_id_eqb_refl. simpl.
  apply app_nil_r.
Qed.

Lemma effects_addUser : forall id P now name w,
  effects id P w (snd (addUser now id name w)).
Proof.
  intros. rewrite addUser_eq.
  destruct (find _ (subscribers w)); cbn [snd].
  - apply effects_loadUsers.
  - eapply effects_trans; [apply effects_loadUsers |].
    apply effects_saveUsers.
    now rewrite others_new, subscribers_after_loadUsers.
Qed.

Lemma effects_removeUser : forall id P w,
  effects id P w (snd (removeUser id w)).
Proof.
  intros. rewrite removeUser_eq. cbv zeta.
  destruct (_ <? _)%nat; cbn [snd].
  - eapply effects_trans; [apply effects_loadUsers |].
    apply effects_saveUsers. fold (others id (subscribers w)).
    now rewrite others_twice, subscribers_after_loadUsers.
  - apply effects_loadUsers.
Qed.

Lemma addUser_returns : forall now id name w,
  exists added, addUser now id name w = (Returned added, snd (addUser now id name w)).
Proof.
  intros. rewrite addUser_eq. destruct (find _ (subscribers w)); eauto.
Qed.

Lemma removeUser_returns : forall id w,
  exists removed, removeUser id w = (Returned removed, snd (removeUser id w)).
Proof.
  intros. rewrite removeUser_eq. cbv zeta. destruct (_ <? _)%nat; eauto.
Qed.

Lemma broadcastMessage_returns : forall message w,
  exists n,
    broadcastMessage message w = (Returned n, snd (broadcastMessage message w)).
Proof. intros. rewrite broadcastMessage_eq. eauto. Qed.

(** What [processUpdate] does for a message, whatever it says. *)
Lemma update_effects : forall now msg w,
  effects (msg_chat msg)
    (fun d => from_admin msg = false -> recipient d = msg_chat msg)
    w (snd (processUpdate now (Some msg) w)).
Proof.
  intros now msg w.
  set (P := fun d => from_admin msg = false -> recipient d = msg_chat msg).
  assert (Hreply : forall text ok w0,
            effects (msg_chat msg) P w0
              (post (mkDelivery (msg_chat msg) text ok) w0)).
  { intros. apply effects_post. intro. reflexivity. }
  assert (Hsend : forall text w0 w1,
            effects (msg_chat msg) P w w0 ->
            w1 = snd (bind (sendTelegramMessage (msg_chat msg) text)
                        (fun _ => ret tt) w0) ->
            effects (msg_chat msg) P w w1).
  { intros text w0 w1 H ->. eapply effects_trans; [exact H |].
    apply Hreply. }
  unfold processUpdate.
  destruct (startsWith (or_else (msg_text msg) "") "/"); cbv zeta.
  - destruct (String.eqb _ COMMANDS.START).
    { destruct (addUser_returns now (msg_chat msg)
                  (or_else (msg_username msg) "unknown") w) as [added Hadd].
      pose proof (effects_addUser (msg_chat msg) P now
                    (or_else (msg_username msg) "unknown") w) as Heff.
      unfold bind at 1. rewrite Hadd.
      set (w1 := snd (addUser _ _ _ w)) in *.
      unfold bind at 1, sendTelegramMessage at 1.
      set (w2 := post _ w1).
      assert (H2 : effects (msg_chat msg) P w w2).
      { eapply effects_trans; [exact Heff | apply Hreply]. }
      destruct added; [| exact H2].
      mred. rewrite loadData_eq.
      destruct (data_file w2) as [| | | s]; try exact H2.
      destruct (Snapshot.buyPrice s); [| exact H2].
      destruct (Snapshot.sellPrice s); [| exact H2].
      destruct (Date_toISOString (Snapshot.lastUpdate s)); [| exact H2].
      cbn [snd]. eapply effects_trans; [exact H2 | apply Hreply]. }
    destruct (String.eqb _ COMMANDS.STOP).
    { destruct (removeUser_returns (msg_chat msg) w) as [removed Hrem].
      pose proof (effects_removeUser (msg_chat msg) P w) as Heff.
      unfold bind at 1. rewrite Hrem.
      eapply Hsend; [exact Heff | reflexivity]. }
    destruct (String.eqb _ COMMANDS.HELP).
    { eapply Hsend; [apply effects_refl | reflexivity]. }
    destruct (String.eqb _ COMMANDS.BROADCAST).
    + destruct (String.eqb (chat_id_toString (msg_chat msg)) ADMIN_CHAT_ID) eqn:A;
        cbn [negb].
      * destruct (negb (String.eqb _ EmptyString)).
        -- match goal with
           | |- context [broadcastMessage ?args] =>
               destruct (broadcastMessage_returns args w) as [n Hcast]
           end.
           unfold bind at 1. rewrite Hcast.
           eapply Hsend; [| reflexivity].
           apply effects_broadcast. intros d _ Hna.
           unfold from_admin in Hna. rewrite A in Hna. discriminate.
        -- eapply Hsend; [apply effects_refl | reflexivity].
      * eapply Hsend; [apply effects_refl | reflexivity].
    + eapply Hsend; [apply effects_refl | reflexivity].
  - destruct (String.eqb (chat_id_toString (msg_chat msg)) ADMIN_CHAT_ID);
      cbn [negb].
    + apply effects_refl.
    + eapply Hsend; [apply effects_refl | reflexivity].
Qed.

(** X9: Handling an inbound update never changes the snapshot file,
    whatever the update says and whoever sends it. *)
Theorem message_never_changes_the_snapshot : forall now update w,
  data_file (snd (processUpdate now update w)) = data_file w.
Proof.
  intros now [msg |] w; [| reflexivity].
  apply (update_effects now msg w).
Qed.

(** X10: Handling a message changes no subscriber record but the
    sender's: the records of everybody else are the same, in the same
    order, afterwards. *)
Theorem message_changes_only_its_sender : forall now msg w,
  others (msg_chat msg) (subscribers (snd (processUpdate now (Some msg) w))) =
  others (msg_chat msg) (subscribers w).
Proof. intros now msg w. apply (update_effects now msg w). Qed.

(** X11: Whatever a sender other than the admin writes, every call to
    Telegram made while handling it is addressed to that sender: nobody
    but the admin can make the bot write to somebody else. *)
Theorem only_the_admin_reaches_others : forall now msg w,
  from_admin msg = false ->
  exists ds,
    outbox (snd (processUpdate now (Some msg) w)) = (outbox w ++ ds)%list /\
    Forall (fun d => recipient d = msg_chat msg) ds.
Proof.
  intros now msg w Hna.
  destruct (update_effects now msg w) as (_ & _ & ds & Hout & Hds).
  exists ds. split; [exact Hout |].
  eapply Forall_impl; [| exact Hds]. intros d Hd. now apply Hd.
Qed.

(* ================================================================== *)
(** * The other commands *)

Lemma not_in_find_none : forall id users,
  ~ In id (map chatId users) ->
  find (fun user => chat_id_eqb (chatId user) id) users = None.
Proof.
  intros id users Hnotin.
  destruct (find _ users) as [u |] eqn:E; [| reflexivity].
  apply find_some in E as [Hin Heq]. apply chat_id_eqb_eq in Heq.
  exfalso. apply Hnotin. apply in_map_iff. eauto.
Qed.

Lemma slash_text : forall text,
  startsWith text "/" = true -> or_else (Some text) "" = text.
Proof. intros [| c r] H; [discriminate | reflexivity]. Qed.

Lemma disk_always_up_saves : forall users w,
  (forall k, disk_up k = true) ->
  after_saveUsers users (after_loadUsers w) =
  set_users_file (Holds users) (log_write USERS_FILE true (after_loadUsers w)).
Proof. intros users w H. unfold after_saveUsers. now rewrite H. Qed.

(** How [/start] runs for a sender who is not in the store. *)
Lemma start_new_eq : forall now msg text w,
  msg_text msg = Some text ->
  split_head " " text = COMMANDS.START ->
  ~ In (msg_chat msg) (identities w) ->
  processUpdate now (Some msg) w =
  (let w1 :=
     post (mkDelivery (msg_chat msg) MESSAGES.WELCOME
             (telegram_up (length (outbox w))))
       (after_saveUsers (subscribers w ++ [new_subscriber now msg])
          (after_loadUsers w)) in
   match data_file w with
   | Holds s =>
       match Snapshot.buyPrice s, Snapshot.sellPrice s with
       | Some buy, Some sell =>
           match Date_toISOString (Snapshot.lastUpdate s) with
           | Some iso =>
               (Returned tt,
                post (mkDelivery (msg_chat msg)
                        (price_list_message buy sell (split_head "T" iso))
                        (telegram_up (S (length (outbox w))))) w1)
           | None => (Thrown RangeError, w1)
           end
       | _, _ => (Thrown TypeError, w1)
       end
   | Missing | Unreadable | Corrupt => (Returned tt, w1)
   end).
Proof.
  intros now msg text w Htext Hcmd Hnew.
  destruct (command_text _ _ Hcmd) as [Hslash Htext'].
  unfold processUpdate. rewrite Htext, Htext'. cbv zeta.
  rewrite Hslash, Hcmd.
  replace (String.eqb COMMANDS.START COMMANDS.START) with true by reflexivity.
  cbv iota. unfold bind at 1. rewrite addUser_eq.
  rewrite (not_in_find_none _ _ Hnew). fold (new_subscriber now msg).
  set (w0 := after_saveUsers _ _).
  assert (H0 : outbox w0 = outbox w /\ data_file w0 = data_file w).
  { subst w0. unfold after_saveUsers.
    destruct (disk_up _); cbn;
      now rewrite outbox_after_loadUsers, data_file_after_loadUsers. }
  destruct H0 as [Hout Hfile].
  unfold bind at 1, sendTelegramMessage at 1. rewrite Hout.
  set (w1 := post _ w0).
  mred. rewrite loadData_eq.
  replace (data_file w1) with (data_file w) by (subst w1; now rewrite <- Hfile).
  destruct (data_file w) as [| | | s]; try reflexivity.
  destruct (Snapshot.buyPrice s) as [buy |]; [| reflexivity].
  destruct (Snapshot.sellPrice s) as [sell |]; [| reflexivity].
  destruct (Date_toISOString (Snapshot.lastUpdate s)) as [iso |]; [| reflexivity].
  unfold sendTelegramMessage.
  replace (length (outbox w1)) with (S (length (outbox w)))
    by (subst w1; unfold post; cbn [outbox]; rewrite length_app, Hout; cbn; lia).
  reflexivity.
Qed.

Lemma start_run : forall now msg text w,
  msg_text msg = Some text ->
  split_head " " text = COMMANDS.START ->
  ~ In (msg_chat msg) (identities w) ->
  (forall k, disk_up k = true) ->
  (forall s, data_file w = Holds s -> snapshot_text s <> None) ->
  subscribers (snd (processUpdate now (Some msg) w)) =
    (subscribers w ++ [new_subscriber now msg])%list /\
  fst (processUpdate now (Some msg) w) = Returned tt /\
  outbox (snd (processUpdate now (Some msg) w)) =
    (outbox w ++
     mkDelivery (msg_chat msg) MESSAGES.WELCOME
       (telegram_up (length (outbox w)))
     :: price_reply (msg_chat msg) (S (length (outbox w))) (data_file w))%list.
Proof.
  intros now msg text w Htext Hcmd Hnew Hdisk Hsnap.
  rewrite (start_new_eq now msg text w Htext Hcmd Hnew). cbv zeta.
  rewrite (disk_always_up_saves _ _ Hdisk).
  unfold price_reply, snapshot_text.
  destruct (data_file w) as [| | | s] eqn:E.
  1-3: split; [reflexivity |]; split;
    [reflexivity | cbn; now rewrite outbox_after_loadUsers].
  specialize (Hsnap s eq_refl). unfold snapshot_text in Hsnap.
  destruct (Snapshot.buyPrice s) as [buy |]; [| contradiction].
  destruct (Snapshot.sellPrice s) as [sell |]; [| contradiction].
  destruct (Date_toISOString (Snapshot.lastUpdate s)) as [iso |];
    [| contradiction].
  split; [reflexivity |]. split; [reflexivity |].
  cbn. rewrite outbox_after_loadUsers. now rewrite <- app_assoc.
Qed.

(** X12: [/start] from a sender who is not in the store, with a disk
    that takes writes and a snapshot that is absent or can be rendered:
    the sender is appended to the store under [from.username], or
    ["unknown"] when there is none, and is sent the welcome text, followed
    by the current price list exactly when a snapshot is stored. *)
Theorem start_subscribes_and_welcomes :
  forall now msg text w,
    msg_text msg = Some text ->
    split_head " " text = COMMANDS.START ->
    ~ In (msg_chat msg) (identities w) ->
    (forall k, disk_up k = true) ->
    (forall s, data_file w = Holds s -> snapshot_text s <> None) ->
    exists w',
      processUpdate now (Some msg) w = (Returned tt, w') /\
      subscribers w' = (subscribers w ++ [new_subscriber now msg])%list /\
      outbox w' =
        (outbox w ++
         mkDelivery (msg_chat msg) MESSAGES.WELCOME
           (telegram_up (length (outbox w)))
         :: price_reply (msg_chat msg) (S (length (outbox w))) (data_file w))%list.
Proof.
  intros now msg text w Htext Hcmd Hnew Hdisk Hsnap.
  destruct (start_run now msg text w Htext Hcmd Hnew Hdisk Hsnap)
    as (Hsub & Hret & Hout).
  exists (snd (processUpdate now (Some msg) w)).
  split; [| split; assumption].
  destruct (processUpdate now (Some msg) w) as [o w']. cbn in *. now subst o.
Qed.

(** X13: [/start] from a sender who is not in the store, while the stored
    snapshot cannot be rendered (a [null] price, or a last update that is
    no date): the handler raises, after the sender was sent the welcome
    text and, when the disk takes writes, added to the store; no price
    list is sent. *)
Theorem start_raises_on_unprintable_snapshot :
  forall now msg text s w,
    msg_text msg = Some text ->
    split_head " " text = COMMANDS.START ->
    ~ In (msg_chat msg) (identities w) ->
    data_file w = Holds s ->
    snapshot_text s = None ->
    exists e w',
      processUpdate now (Some msg) w = (Thrown e, w') /\
      outbox w' =
        (outbox w ++
         [mkDelivery (msg_chat msg) MESSAGES.WELCOME
            (telegram_up (length (outbox w)))])%list /\
      ((forall k, disk_up k = true) ->
       subscribers w' = (subscribers w ++ [new_subscriber now msg])%list).
Proof.
  intros now msg text s w Htext Hcmd Hnew Hfile Hsnap.
  rewrite (start_new_eq now msg text w Htext Hcmd Hnew). cbv zeta.
  rewrite Hfile. unfold snapshot_text in Hsnap.
  assert (Hout : forall users,
            outbox (post (mkDelivery (msg_chat msg) MESSAGES.WELCOME
                            (telegram_up (length (outbox w))))
                      (after_saveUsers users (after_loadUsers w))) =
            (outbox w ++
             [mkDelivery (msg_chat msg) MESSAGES.WELCOME
                (telegram_up (length (outbox w)))])%list).
  { intro users. unfold after_saveUsers.
    destruct (disk_up _); cbn; now rewrite outbox_after_loadUsers. }
  assert (Hsub : (forall k, disk_up k = true) ->
            subscribers (post (mkDelivery (msg_chat msg) MESSAGES.WELCOME
                                 (telegram_up (length (outbox w))))
                           (after_saveUsers
                              (subscribers w ++ [new_subscriber now msg])
                              (after_loadUsers w))) =
            (subscribers w ++ [new_subscriber now msg])%list).
  { intro Hdisk. now rewrite (disk_always_up_saves _ _ Hdisk). }
  destruct (Snapshot.buyPrice s) as [buy |];
    [| exists TypeError; eexists; split; [reflexivity | split; [apply Hout | exact Hsub]]].
  destruct (Snapshot.sellPrice s) as [sell |];
    [| exists TypeError; eexists; split; [reflexivity | split; [apply Hout | exact Hsub]]].
  destruct (Date_toISOString (Snapshot.lastUpdate s)) as [iso |];
    [discriminate |].
  exists RangeError. eexists. split; [reflexivity |].
  split; [apply Hout | exact Hsub].
Qed.

(** X14: [/start] from a sender who is already in the store sends the
    already-subscribed reply and does nothing else: the store, the
    snapshot and the disk are as before. *)
Theorem start_when_subscribed_only_replies :
  forall now msg text w,
    msg_text msg = Some text ->
    split_head " " text = COMMANDS.START ->
    In (msg_chat msg) (identities w) ->
    processUpdate now (Some msg) w =
    (Returned tt,
     post (mkDelivery (msg_chat msg) MESSAGES.ALREADY_SUBSCRIBED
             (telegram_up (length (outbox w)))) w).
Proof.
  intros now msg text w Htext Hcmd Hin.
  destruct (command_text _ _ Hcmd) as [Hslash Htext'].
  unfold processUpdate. rewrite Htext, Htext'. cbv zeta.
  rewrite Hslash, Hcmd.
  replace (String.eqb COMMANDS.START COMMANDS.START) with true by reflexivity.
  cbv iota. unfold bind at 1. rewrite addUser_eq.
  destruct (find_some_of_in _ _ Hin) as [u ->].
  unfold identities, subscribers in Hin.
  destruct (users_file w) eqn:E; try contradiction.
  rewrite (after_loadUsers_holds _ _ E). reflexivity.
Qed.

Lemma stop_run : forall now msg text w,
  msg_text msg = Some text ->
  split_head " " text = COMMANDS.STOP ->
  In (msg_chat msg) (identities w) ->
  disk_up (length (disk_log w)) = true ->
  users_file (snd (processUpdate now (Some msg) w)) =
    Holds (others (msg_chat msg) (subscribers w)) /\
  ~ In (msg_chat msg) (identities (snd (processUpdate now (Some msg) w))).
Proof.
  intros now msg text w Htext Hcmd Hin Hdisk.
  destruct (command_text _ _ Hcmd) as [Hslash Htext'].
  assert (Hrun : processUpdate now (Some msg) w =
    (removed <- removeUser (msg_chat msg) ;;
     sendTelegramMessage (msg_chat msg)
       (if removed then MESSAGES.UNSUBSCRIBED else MESSAGES.NOT_SUBSCRIBED) ;;;
     ret tt) w).
  { unfold processUpdate. rewrite Htext, Htext'. cbv zeta.
    rewrite Hslash, Hcmd. reflexivity. }
  rewrite Hrun. clear Hrun. unfold bind at 1 3. rewrite removeUser_eq. cbv zeta.
  pose proof (filter_present _ _ Hin) as Hlt. apply Nat.ltb_lt in Hlt.
  rewrite Hlt.
  assert (Hfile : exists users, users_file w = Holds users).
  { unfold identities, subscribers in Hin.
    destruct (users_file w); try contradiction. eauto. }
  destruct Hfile as [users E].
  rewrite (after_loadUsers_holds _ _ E). unfold after_saveUsers.
  rewrite Hdisk. split; [reflexivity |].
  unfold identities, subscribers. cbn. intro Habs.
  apply in_map_iff in Habs as (u & Hu & Hfilter).
  apply filter_In in Hfilter as [_ Hneg]. unfold same_chat in Hneg.
  rewrite Hu, chat_id_eqb_refl in Hneg. discriminate.
Qed.

(** X15: [/stop] from a sender in the store, when the disk takes the
    write, removes the sender's records, keeps the others in order and
    sends the unsubscribed reply; from a sender who is not in the store it
    sends the not-subscribed reply and the collection stays as it is. *)
Theorem stop_unsubscribes :
  forall now msg text w,
    msg_text msg = Some text ->
    split_head " " text = COMMANDS.STOP ->
    let sender := msg_chat msg in
    let next := telegram_up (length (outbox w)) in
    (In sender (identities w) ->
     disk_up (length (disk_log w)) = true ->
     exists w',
       processUpdate now (Some msg) w = (Returned tt, w') /\
       users_file w' = Holds (others sender (subscribers w)) /\
       ~ In sender (identities w') /\
       outbox w' = (outbox w ++ [mkDelivery sender MESSAGES.UNSUBSCRIBED next])%list) /\
    (~ In sender (identities w) ->
     exists w',
       processUpdate now (Some msg) w = (Returned tt, w') /\
       subscribers w' = subscribers w /\
       outbox w' = (outbox w ++ [mkDelivery sender MESSAGES.NOT_SUBSCRIBED next])%list).
Proof.
  intros now msg text w Htext Hcmd sender next.
  destruct (command_text _ _ Hcmd) as [Hslash Htext'].
  assert (Hrun : processUpdate now (Some msg) w =
    (removed <- removeUser sender ;;
     sendTelegramMessage sender
       (if removed then MESSAGES.UNSUBSCRIBED else MESSAGES.NOT_SUBSCRIBED) ;;;
     ret tt) w).
  { unfold processUpdate. rewrite Htext, Htext'. cbv zeta.
    rewrite Hslash, Hcmd. reflexivity. }
  rewrite Hrun. clear Hrun.
  split; [intros Hin Hdisk | intro Hnotin];
    unfold bind at 1; rewrite removeUser_eq; cbv zeta.
  - pose proof (filter_present _ _ Hin) as Hlt. apply Nat.ltb_lt in Hlt.
    rewrite Hlt.
    assert (Hfile : exists users, users_file w = Holds users).
    { unfold identities, subscribers in Hin.
      destruct (users_file w); try contradiction. eauto. }
    destruct Hfile as [users E].
    rewrite (after_loadUsers_holds _ _ E). unfold after_saveUsers.
    rewrite Hdisk. eexists. split; [reflexivity |].
    split; [reflexivity |]. split; [| reflexivity].
    unfold identities, subscribers. cbn. intro Habs.
    apply in_map_iff in Habs as (u & Hu & Hfilter).
    apply filter_In in Hfilter as [_ Hneg]. unfold same_chat in Hneg.
    subst sender. rewrite Hu, chat_id_eqb_refl in Hneg. discriminate.
  - rewrite (filter_absent _ _ Hnotin), Nat.ltb_irrefl.
    eexists. split; [reflexivity |]. cbn.
    rewrite outbox_after_loadUsers. split; [| reflexivity].
    unfold subscribers at 1. cbn. apply subscribers_after_loadUsers.
Qed.

(** X16: The replies that change nothing.  [/help] answers with the
    command list, followed by the admin command list exactly when the
    sender is the admin; any other text starting with a slash whose first
    token is none of the four commands answers with the unknown-command
    hint; a text that starts with no slash (or no text at all) answers
    with the help hint, unless the sender is the admin, who gets no
    answer; an update without a message does nothing.  In each case the
    answer is the only effect. *)
Theorem replies_that_change_nothing :
  forall now msg w,
    let sender := msg_chat msg in
    let text := or_else (msg_text msg) "" in
    let command := split_head " " text in
    let reply body :=
      (Returned tt,
       post (mkDelivery sender body (telegram_up (length (outbox w)))) w) in
    (command = COMMANDS.HELP ->
     processUpdate now (Some msg) w =
     reply (if from_admin msg
            then MESSAGES.HELP ++ nl ++ nl ++ MESSAGES.ADMIN_HELP
            else MESSAGES.HELP)) /\
    (startsWith text "/" = true ->
     command <> COMMANDS.START -> command <> COMMANDS.STOP ->
     command <> COMMANDS.HELP -> command <> COMMANDS.BROADCAST ->
     processUpdate now (Some msg) w =
     reply "Unknown command. Use /help for available commands.") /\
    (startsWith text "/" = false ->
     processUpdate now (Some msg) w =
     if from_admin msg then (Returned tt, w)
     else reply "Use /help for available commands.") /\
    processUpdate now None w = (Returned tt, w).
Proof.
  intros now msg w sender text command reply.
  split; [| split; [| split]].
  - intro Hcmd.
    assert (Hslash : startsWith text "/" = true).
    { subst command. destruct text as [| c r]; [discriminate |].
      simpl in Hcmd. destruct (Ascii.eqb c " "); [discriminate |].
      injection Hcmd as -> _. reflexivity. }
    unfold processUpdate. fold text. cbv zeta. fold command.
    rewrite Hslash, Hcmd. fold (from_admin msg). fold sender.
    destruct (from_admin msg); reflexivity.
  - intros Hslash H1 H2 H3 H4.
    apply String.eqb_neq in H1, H2, H3, H4.
    unfold processUpdate. fold text. cbv zeta. fold command.
    rewrite Hslash, H1, H2, H3, H4. reflexivity.
  - intro Hslash. unfold processUpdate. fold text. cbv zeta.
    rewrite Hslash. fold (from_admin msg).
    destruct (from_admin msg); reflexivity.
  - reflexivity.
Qed.

(** X17: Handling an update whose message, if any, carries its [chat]
    and [from] objects ends normally whenever the snapshot file is absent
    or unusable, or holds a snapshot that can be rendered (numeric prices
    and a valid date): for such updates, rendering the stored snapshot for
    a new subscriber is the only step of [processUpdate] that can raise. *)
Theorem message_returns_when_snapshot_prints :
  forall now update w,
    (forall s, data_file w = Holds s -> snapshot_text s <> None) ->
    fst (processUpdate now update w) = Returned tt.
Proof.
  intros now [msg |] w Hsnap; [| reflexivity].
  unfold processUpdate.
  destruct (startsWith (or_else (msg_text msg) "") "/"); cbv zeta.
  - destruct (String.eqb _ COMMANDS.START).
    { destruct (addUser_returns now (msg_chat msg)
                  (or_else (msg_username msg) "unknown") w) as [added Hadd].
      destruct (effects_addUser (msg_chat msg) (fun _ => True) now
                  (or_else (msg_username msg) "unknown") w) as (Hfile & _).
      unfold bind at 1. rewrite Hadd.
      set (w1 := snd (addUser _ _ _ w)) in *.
      unfold bind at 1, sendTelegramMessage at 1.
      destruct added; [| reflexivity].
      mred. rewrite loadData_eq. cbn [data_file post]. rewrite Hfile.
      destruct (data_file w) as [| | | s]; try reflexivity.
      specialize (Hsnap s eq_refl). unfold snapshot_text in Hsnap.
      destruct (Snapshot.buyPrice s); [| contradiction].
      destruct (Snapshot.sellPrice s); [| contradiction].
      destruct (Date_toISOString (Snapshot.lastUpdate s)); [| contradiction].
      reflexivity. }
    destruct (String.eqb _ COMMANDS.STOP).
    { destruct (removeUser_returns (msg_chat msg) w) as [removed Hrem].
      unfold bind at 1. rewrite Hrem. reflexivity. }
    destruct (String.eqb _ COMMANDS.HELP); [reflexivity |].
    destruct (String.eqb _ COMMANDS.BROADCAST); [| reflexivity].
    destruct (negb (String.eqb (chat_id_toString (msg_chat msg)) ADMIN_CHAT_ID));
      [reflexivity |].
    destruct (negb (String.eqb _ EmptyString)); [| reflexivity].
    match goal with
    | |- context [broadcastMessage ?args] =>
        destruct (broadcastMessage_returns args w) as [n Hcast]
    end.
    unfold bind at 1. rewrite Hcast. reflexivity.
  - destruct (negb (String.eqb (chat_id_toString (msg_chat msg)) ADMIN_CHAT_ID));
      reflexivity.
Qed.

(* ================================================================== *)
(** * Subscribing, unsubscribing and the next broadcast *)

(** X18: Adding an identity that is not in the store and removing it
    again, on a disk that takes both writes, leaves the subscriber file
    holding the collection it started from; in between the identity counts
    as subscribed, and afterwards it does not. *)
Theorem add_then_remove_restores_the_store :
  forall now id name w,
    ~ In id (identities w) ->
    (forall k, disk_up k = true) ->
    let w1 := snd (addUser now id name w) in
    let w2 := snd (removeUser id w1) in
    fst (isUserSubscribed id w1) = Returned true /\
    users_file w2 = Holds (subscribers w) /\
    fst (isUserSubscribed id w2) = Returned false.
Proof.
  intros now id name w Hnew Hdisk w1 w2.
  assert (H1 : users_file w1 = Holds (subscribers w ++ [mkUser id name now])%list).
  { subst w1. rewrite addUser_eq, (not_in_find_none _ _ Hnew). cbn [snd].
    now rewrite (disk_always_up_saves _ _ Hdisk). }
  assert (Hs1 : subscribers w1 = (subscribers w ++ [mkUser id name now])%list).
  { unfold subscribers at 1. now rewrite H1. }
  assert (Hkept : filter (fun user => negb (same_chat id user)) (subscribers w1)
                  = subscribers w).
  { rewrite Hs1. fold (others id (subscribers w ++ [mkUser id name now])).
    rewrite others_new. now apply filter_absent. }
  assert (H2 : users_file w2 = Holds (subscribers w)).
  { subst w2. rewrite removeUser_eq. cbv zeta. rewrite Hkept, Hs1.
    rewrite length_app, Nat.add_1_r.
    replace (length (subscribers w) <? S (length (subscribers w)))%nat
      with true by (symmetry; apply Nat.ltb_lt; lia).
    cbn [snd]. unfold after_saveUsers. now rewrite Hdisk. }
  split; [| split].
  - rewrite isUserSubscribed_eq, Hs1. cbn [fst]. f_equal.
    rewrite existsb_app. simpl. unfold same_chat at 2. simpl.
    rewrite chat_id_eqb_refl. apply orb_true_r.
  - exact H2.
  - rewrite isUserSubscribed_eq. cbn [fst]. f_equal.
    unfold subscribers. rewrite H2.
    destruct (existsb (same_chat id) (subscribers w)) eqn:E; [| reflexivity].
    apply existsb_exists in E as (u & Hin & Heq). unfold same_chat in Heq.
    apply chat_id_eqb_eq in Heq. exfalso. apply Hnew. apply in_map_iff. eauto.
Qed.

(** X19: After [/start] from a new sender has run to its end on a disk
    that takes writes, a broadcast calls the former subscribers in their
    order and then the new one. *)
Theorem new_subscriber_gets_the_next_broadcast :
  forall now msg text message w,
    msg_text msg = Some text ->
    split_head " " text = COMMANDS.START ->
    ~ In (msg_chat msg) (identities w) ->
    (forall k, disk_up k = true) ->
    (forall s, data_file w = Holds s -> snapshot_text s <> None) ->
    let w1 := snd (processUpdate now (Some msg) w) in
    exists attempts,
      outbox (snd (broadcastMessage message w1)) = (outbox w1 ++ attempts)%list /\
      map recipient attempts = (identities w ++ [msg_chat msg])%list.
Proof.
  intros now msg text message w Htext Hcmd Hnew Hdisk Hsnap w1.
  destruct (start_run now msg text w Htext Hcmd Hnew Hdisk Hsnap) as [Hsub _].
  fold w1 in Hsub.
  destruct (broadcastMessage_frame message w1) as (Hout & _ & _).
  eexists. split; [exact Hout |].
  rewrite attempts_from_recipients, Hsub, map_app. reflexivity.
Qed.

(** X20: After [/stop] from a subscriber has run on a disk that takes the
    write, a broadcast does not call that sender any more, and calls
    everybody else as before. *)
Theorem unsubscribed_gets_no_broadcast :
  forall now msg text message w,
    msg_text msg = Some text ->
    split_head " " text = COMMANDS.STOP ->
    In (msg_chat msg) (identities w) ->
    disk_up (length (disk_log w)) = true ->
    let w1 := snd (processUpdate now (Some msg) w) in
    exists attempts,
      outbox (snd (broadcastMessage message w1)) = (outbox w1 ++ attempts)%list /\
      map recipient attempts = map chatId (others (msg_chat msg) (subscribers w)) /\
      ~ In (msg_chat msg) (map recipient attempts).
Proof.
  intros now msg text message w Htext Hcmd Hin Hdisk w1.
  destruct (stop_run now msg text w Htext Hcmd Hin Hdisk) as [Hfile Hgone].
  fold w1 in Hfile, Hgone.
  destruct (broadcastMessage_frame message w1) as (Hout & _ & _).
  assert (Hsub : subscribers w1 = others (msg_chat msg) (subscribers w)).
  { unfold subscribers at 1. now rewrite Hfile. }
  eexists. split; [exact Hout |].
  rewrite attempts_from_recipients, Hsub. split; [reflexivity |].
  rewrite <- Hsub. exact Hgone.
Qed.

(* ================================================================== *)
(** * The texts that are sent *)

Lemma string_app_assoc : forall a b c : string, (a ++ b) ++ c = a ++ b ++ c.
Proof.
  induction a as [| x a IH]; intros; simpl; [reflexivity | now rewrite IH].
Qed.

Lemma without_app : forall c a b,
  without c (a ++ b) = without c a && without c b.
Proof.
  induction a as [| x a IH]; intro b; simpl; [reflexivity |].
  now rewrite IH, andb_assoc.
Qed.

Lemma strip_prefix_app : forall p b, strip_prefix p (p ++ b) = Some b.
Proof.
  induction p as [| x p IH]; intro b; simpl; [reflexivity |].
  now rewrite Ascii.eqb_refl.
Qed.

Lemma find_first_placeholder : forall a p b,
  without "{" a = true ->
  find_first (String "{" p) (a ++ String "{" p ++ b) = Some (a, b).
Proof.
  induction a as [| x a IH]; intros p b H.
  - change (EmptyString ++ String "{" p ++ b) with (String "{" p ++ b).
    unfold find_first.
    destruct (String "{" p ++ b) eqn:E; [discriminate |].
    rewrite <- E, strip_prefix_app. reflexivity.
  - simpl in H. apply andb_true_iff in H as [Hx Ha].
    apply negb_true_iff in Hx. rewrite Ascii.eqb_sym in Hx.
    change (String x a ++ String "{" p ++ b)
      with (String x (a ++ String "{" p ++ b)).
    cbn [find_first strip_prefix]. rewrite Hx. now rewrite (IH p b Ha).
Qed.

(** Replacing a placeholder that is the first brace of the text, by a
    text with no dollar sign, puts that text in its place. *)
Lemma replace_placeholder : forall a p b r,
  without "{" a = true ->
  no_dollar r = true ->
  replace (a ++ String "{" p ++ b) (String "{" p) r = a ++ r ++ b.
Proof.
  intros a p b r Ha Hr. unfold replace.
  rewrite (find_first_placeholder a p b Ha).
  now rewrite expand_no_dollar.
Qed.

(** X21: The alert sent to the admin on a fetch failure carries the error
    text as it is, after the heading, whenever that text holds no dollar
    sign (in a replacement text [replace] expands dollar patterns). *)
Theorem fetch_error_text_is_verbatim : forall errorMessage w,
  no_dollar errorMessage = true ->
  exists w',
    checkPriceChanges (Failed errorMessage) w = (Returned tt, w') /\
    outbox w' =
      (outbox w ++
       [mkDelivery (StrId ADMIN_CHAT_ID)
          ("⚠️ *Failed to fetch price data*" ++ nl ++ "Error: " ++ errorMessage)
          (telegram_up (length (outbox w)))])%list.
Proof.
  intros errorMessage w H. eexists. split.
  - unfold checkPriceChanges, bind, fetchData, sendTelegramMessage. simpl.
    reflexivity.
  - cbn [outbox post]. do 3 f_equal.
    change MESSAGES.DATA_FETCH_ERROR
      with (("⚠️ *Failed to fetch price data*" ++ nl ++ "Error: ")
            ++ "{errorMessage}" ++ "").
    rewrite replace_placeholder by (try reflexivity; exact H).
    rewrite string_app_assoc. f_equal. rewrite string_app_assoc. f_equal.
    f_equal. clear. induction errorMessage as [| c r IH];
      simpl; [reflexivity | now rewrite IH].
Qed.

(** X22: With a currency formatter whose output holds no dollar sign and
    no opening brace, the three texts of the detection cycle read as their
    templates with the formatted prices, and the date, in place of the
    placeholders. *)
Theorem cycle_texts_fill_the_templates :
  (forall n, no_dollar (toLocaleString_IDR n) = true /\
             without "{" (toLocaleString_IDR n) = true) ->
  (forall buy sell date,
     no_dollar date = true ->
     price_list_message buy sell date =
     "*Gold Savings Price List*" ++ nl ++ nl ++ "Buy: " ++ toLocaleString_IDR buy
     ++ nl ++ "Sell: " ++ toLocaleString_IDR sell ++ nl ++ "Last Update: " ++ date) /\
  (forall oldPrice newPrice,
     buy_dropped_message oldPrice newPrice =
     "⬇️ *Buy price dropped* From " ++ toLocaleString_IDR oldPrice ++ " to *"
     ++ toLocaleString_IDR newPrice ++ "*") /\
  (forall oldPrice newPrice,
     sell_increased_message oldPrice newPrice =
     "⬆️ *Sell price increased* From " ++ toLocaleString_IDR oldPrice ++ " to *"
     ++ toLocaleString_IDR newPrice ++ "*").
Proof.
  intro Hfmt.
  assert (Hd : forall n, no_dollar (toLocaleString_IDR n) = true)
    by (intro n; apply Hfmt).
  assert (Hb : forall n, without "{" (toLocaleString_IDR n) = true)
    by (intro n; apply Hfmt).
  split; [| split].
  - intros buy sell date Hdate. unfold price_list_message.
    change MESSAGES.PRICE_LIST
      with (("*Gold Savings Price List*" ++ nl ++ nl ++ "Buy: ")
            ++ "{buyPrice}"
            ++ (nl ++ "Sell: {sellPrice}" ++ nl ++ "Last Update: {lastUpdate}")).
    rewrite replace_placeholder by (try reflexivity; apply Hd).
    change (nl ++ "Sell: {sellPrice}" ++ nl ++ "Last Update: {lastUpdate}")
      with ((nl ++ "Sell: ") ++ "{sellPrice}" ++ (nl ++ "Last Update: {lastUpdate}")).
    rewrite <- (string_app_assoc (toLocaleString_IDR buy)).
    rewrite <- (string_app_assoc
                  ("*Gold Savings Price List*" ++ nl ++ nl ++ "Buy: ")).
    rewrite replace_placeholder
      by (try apply Hd; rewrite !without_app, Hb; reflexivity).
    change (nl ++ "Last Update: {lastUpdate}")
      with ((nl ++ "Last Update: ") ++ "{lastUpdate}" ++ "").
    rewrite <- (string_app_assoc (toLocaleString_IDR sell)).
    rewrite <- (string_app_assoc
                  (("*Gold Savings Price List*" ++ nl ++ nl ++ "Buy: ")
                   ++ toLocaleString_IDR buy ++ nl ++ "Sell: ")).
    rewrite replace_placeholder
      by (try exact Hdate; rewrite !without_app, !Hb; reflexivity).
    rewrite !string_app_assoc.
    replace (date ++ "") with date
      by (clear; induction date; simpl; congruence).
    reflexivity.
  - intros oldPrice newPrice. unfold buy_dropped_message.
    change MESSAGES.BUY_PRICE_DROPPED
      with ("⬇️ *Buy price dropped* From " ++ "{oldPrice}" ++ " to *{newPrice}*").
    rewrite replace_placeholder by (try reflexivity; apply Hd).
    change " to *{newPrice}*" with (" to *" ++ "{newPrice}" ++ "*").
    rewrite <- (string_app_assoc (toLocaleString_IDR oldPrice)).
    rewrite <- (string_app_assoc "⬇️ *Buy price dropped* From ").
    rewrite replace_placeholder
      by (try apply Hd; rewrite !without_app, Hb; reflexivity).
    now rewrite !string_app_assoc.
  - intros oldPrice newPrice. unfold sell_increased_message.
    change MESSAGES.SELL_PRICE_INCREASED
      with ("⬆️ *Sell price increased* From " ++ "{oldPrice}" ++ " to *{newPrice}*").
    rewrite replace_placeholder by (try reflexivity; apply Hd).
    change " to *{newPrice}*" with (" to *" ++ "{newPrice}" ++ "*").
    rewrite <- (string_app_assoc (toLocaleString_IDR oldPrice)).
    rewrite <- (string_app_assoc "⬆️ *Sell price increased* From ").
    rewrite replace_placeholder
      by (try apply Hd; rewrite !without_app, Hb; reflexivity).
    now rewrite !string_app_assoc.
Qed.

End Bot.

(* ================================================================== *)
(** * Worked instances *)

(** The runtime primitives on sample texts. *)
Example parseFloat_integer : parseFloat (VStr "100000") = Some 100000%float.
Proof. reflexivity. Qed.

Example parseFloat_prefix :
  parseFloat (VStr "  -12.5 per gram") = Some (-12.5)%float.
Proof. reflexivity. Qed.

Example parseFloat_exponent : parseFloat (VStr "1.5e3") = Some 1500%float.
Proof. reflexivity. Qed.

Example parseFloat_not_a_number :
  option_map is_nan (parseFloat (VStr "n/a")) = Some true /\
  option_map is_nan (parseFloat VUndefined) = Some true /\
  option_map is_nan (parseFloat VNull) = Some true /\
  option_map is_nan (parseFloat (VObj [("hargaJual", VNum 1)])) = Some true.
Proof. repeat split. Qed.

(** An object with an own [toString] cannot be printed, alone or inside an
    array, behind a number or not; a payload with such a price field ends
    the cycle before anything is saved or sent. *)
Example parseFloat_raises :
  parseFloat (VObj [("toString", VNum 1)]) = None /\
  parseFloat (VArr [VNum 5; VObj [("toString", VNum 1)]]) = None /\
  parseFloat (VArr [VNum 5; VArr [VNull; VObj [("toString", VNull)]]]) = None /\
  parseFloat (VArr [VNum 5; VObj [("valueOf", VNum 1)]]) = Some 5%float.
Proof. repeat split. Qed.

Example trim_unicode_space :
  trim (utf8 [194; 160; 32] ++ "hi there" ++ utf8 [9; 226; 128; 168]) = "hi there".
Proof. reflexivity. Qed.

Example replace_first_only : replace "a-b-c" "-" "+" = "a+b-c".
Proof. reflexivity. Qed.

Example replace_dollar_patterns :
  replace "x {m} y" "{m}" "[$&|$$|$1]" = "x [{m}|$|$1] y".
Proof. reflexivity. Qed.

(** The program in the sample environment. *)
Abbreviation sample_cycle :=
  (checkPriceChanges sample_admin sample_up sample_up sample_rupiah
     sample_toISOString).
Abbreviation sample_process :=
  (processUpdate sample_admin sample_up sample_up sample_rupiah
     sample_toISOString sample_Number_toString "2024-05-01T10:00:00.000Z").

Lemma fetch_failure_witness :
  exists w',
    sample_cycle (Failed "timeout of 5000ms exceeded") world1 = (Returned tt, w') /\
    outbox w' =
      [mkDelivery (StrId "42")
         (fetch_error_message "timeout of 5000ms exceeded") true] /\
    data_file w' = Holds sample_snapshot /\
    users_file w' = Holds [ann; bob] /\
    disk_log w' = [].
Proof.
  exact (fetch_failure_alerts_admin_only sample_admin sample_up sample_up
           sample_rupiah sample_toISOString "timeout of 5000ms exceeded" world1).
Defined.

Lemma payload_without_price_entry_witness :
  sample_cycle (Replied (VObj [("data", VObj [("priceList", VArr [])])])) world1
  = (Returned tt, world1).
Proof.
  apply (payload_without_price_entry_is_dropped sample_admin sample_up sample_up
           sample_rupiah sample_toISOString).
  reflexivity.
Defined.

(** C3 as stated fails: a payload with no [data] ends the cycle without a
    word to the admin, and a payload whose price fields are not numbers is
    no error at all: from no snapshot it is stored, with [null] prices, and
    announced to the subscribers. *)
Lemma malformed_payload_sends_no_alert :
  no_price_entry (VObj []) = true /\
  outbox (snd (sample_cycle (Replied (VObj [])) world0)) = [] /\
  parse_newData
    (VObj [("data", VObj [("priceList", VArr [price_entry "n/a" "n/a"])])])
  <> None /\
  data_file
    (snd (sample_cycle
            (Replied
               (VObj [("data", VObj [("priceList", VArr [price_entry "n/a" "n/a"])])]))
            world0))
  = Holds (Snapshot.make None None (VStr "2024-05-01T10:00:00Z")) /\
  map recipient
    (outbox
       (snd (sample_cycle
               (Replied
                  (VObj [("data", VObj [("priceList", VArr [price_entry "n/a" "n/a"])])]))
               world0)))
  = [NumId 7; NumId 8].
Proof. repeat split. discriminate. Qed.

Lemma first_cycle_witness :
  exists w',
    sample_cycle (Replied sample_payload) world0 = (Returned tt, w') /\
    data_file w' = Holds sample_snapshot /\
    outbox w' =
      attempts_from sample_up 0 [ann; bob]
        (price_list_message sample_rupiah 100000 95000 "2024-05-01") /\
    subscribers w' = [ann; bob].
Proof.
  exact (first_cycle_saves_and_announces sample_admin sample_up sample_up
           sample_rupiah sample_toISOString sample_payload sample_newData
           "2024-05-01T10:00:00.000Z" world0 eq_refl eq_refl eq_refl).
Defined.

Lemma later_cycle_witness :
  exists w' loads,
    sample_cycle (Replied sample_payload) world1 = (Returned tt, w') /\
    outbox w' =
      announcements sample_up 0 [ann; bob]
        [buy_dropped_message sample_rupiah 100000 99000;
         sell_increased_message sample_rupiah 95000 96000] /\
    Forall (fun e => fst e = USERS_FILE) loads /\
    disk_log w' = (loads ++ [(DATA_FILE, true)])%list /\
    data_file w' =
      Holds (Snapshot.make (Some 99000%float) (Some 96000%float)
               (VStr "2024-05-01T10:00:00Z")) /\
    subscribers w' = [ann; bob].
Proof.
  exact (later_cycle_notifies_and_saves sample_admin sample_up sample_up
           sample_rupiah sample_toISOString sample_payload sample_newData
           sample_snapshot 100000%float 95000%float world1
           eq_refl eq_refl eq_refl eq_refl).
Defined.

Lemma store_witness :
  Forall (fun w' => NoDup (identities w'))
    (run_ops sample_up (NumId 7)
       [Add "2024-05-01T10:00:00.000Z" "ann"; Remove;
        Add "2024-05-01T10:05:00.000Z" "ann"; Add "2024-05-01T10:06:00.000Z" "ann"]
       world0) /\
  addUser sample_up "2024-05-01T10:00:00.000Z" (NumId 7) "ann" world0
  = (Returned false, world0).
Proof.
  destruct (store_never_holds_duplicates sample_up (NumId 7)) as [Hseq Hadd].
  split.
  - apply Hseq. simpl. repeat constructor; simpl; intuition discriminate.
  - apply Hadd. simpl. now left.
Defined.

Lemma broadcast_witness :
  exists attempts w',
    broadcastMessage (fun k => Nat.even k) sample_up "x" world0
    = (Returned (successes attempts), w') /\
    outbox w' = attempts /\
    map recipient attempts = [NumId 7; NumId 8] /\
    Forall (fun d => body d = "x") attempts /\
    successes attempts = 2 - failures attempts.
Proof.
  exact (broadcast_returns_successes (fun k => Nat.even k) sample_up "x" world0).
Defined.


Lemma removeUser_witness :
  (exists w',
     removeUser sample_up (NumId 9) world0 = (Returned false, w') /\
     subscribers w' = [ann; bob] /\
     w' = world0) /\
  (exists w',
     removeUser sample_up (NumId 7) world0 = (Returned true, w') /\
     users_file w' = Holds [bob] /\
     disk_log w' = [(USERS_FILE, true)] /\
     length (subscribers world0) = S (length (subscribers w'))).
Proof.
  destruct (removeUser_deletes_the_record sample_up (NumId 9) world0)
    as [Habsent _].
  destruct (removeUser_deletes_the_record sample_up (NumId 7) world0)
    as [_ Hpresent].
  split.
  - destruct Habsent as (w' & Hrun & Hsame & Hfile).
    + simpl. intuition discriminate.
    + exists w'. split; [exact Hrun |]. split; [exact Hsame |].
      now apply Hfile with [ann; bob].
  - destruct Hpresent as (w' & Hrun & Hfile & Hlog & Hone).
    + simpl. now left.
    + reflexivity.
    + exists w'. split; [exact Hrun |]. split; [exact Hfile |].
      split; [exact Hlog |]. apply Hone.
      simpl. repeat constructor; simpl; intuition discriminate.
Defined.

Lemma reads_witness :
  subscribers world_unusable = [] /\
  (forall id, exists w',
     isUserSubscribed sample_up id world_unusable = (Returned false, w')) /\
  (forall message, exists w',
     broadcastMessage sample_up sample_up message world_unusable
     = (Returned 0, w') /\ outbox w' = []) /\
  (forall r,
     fst (sample_cycle r world_unusable)
     = fst (sample_cycle r (set_data_file Missing world_unusable))).
Proof.
  destruct (reads_are_total sample_admin sample_up sample_up sample_rupiah
              sample_toISOString world_unusable)
    as (_ & Husers & _ & Hdata).
  destruct (Husers eq_refl) as (Hnone & Hsub & Hcast).
  split; [exact Hnone |]. split; [exact Hsub |]. split; [exact Hcast |].
  intro r. apply (Hdata eq_refl r).
Defined.

(* ================================================================== *)
(** * When the write of the subscriber file fails *)

(** C8 fails on the code: when the write fails the store is as it was,
    yet [addUser] answers true, as [removeUser] does; so it is from the
    first call on when [./temp] does not exist and no write can succeed. *)
Lemma addUser_reports_success_when_the_write_fails :
  addUser sample_down "2024-05-01T10:00:00.000Z" (NumId 9) "cat" world0
  = (Returned true, log_write USERS_FILE false world0) /\
  users_file (log_write USERS_FILE false world0) = users_file world0 /\
  fst (isUserSubscribed sample_down (NumId 9) (log_write USERS_FILE false world0))
  = Returned false /\
  removeUser sample_down (NumId 7) world0
  = (Returned true, log_write USERS_FILE false world0) /\
  addUser sample_down "2024-05-01T10:00:00.000Z" (NumId 9) "cat"
    (mkWorld Missing Missing [] [])
  = (Returned true,
     mkWorld Missing Missing [] [(USERS_FILE, false); (USERS_FILE, false)]).
Proof. repeat split. Qed.

(* ================================================================== *)
(** * Where the cycle does not do what the later and the first cycle do *)

(** C1 as stated fails: a previous snapshot exists, its prices are [null]
    (what the program writes after a payload without numeric prices), the
    payload parses and the disk takes writes; the cycle raises in
    [formatPrice(null)], broadcasts nothing and does not persist the
    adjusted candidate: the disk is not written at all. *)
Lemma null_snapshot_is_never_replaced :
  data_file world_null = Holds null_snapshot /\
  parse_newData sample_payload = Some sample_newData /\
  sample_up (length (disk_log world_null)) = true /\
  outbox (snd (sample_cycle (Replied sample_payload) world_null)) = [] /\
  disk_log (snd (sample_cycle (Replied sample_payload) world_null)) = [] /\
  data_file (snd (sample_cycle (Replied sample_payload) world_null))
  <> Holds (json_price_data (adjust sample_newData)).
Proof.
  split; [reflexivity |]. split; [reflexivity |]. split; [reflexivity |].
  split; [reflexivity |]. split; [reflexivity |].
  vm_compute. discriminate.
Qed.

(** C2 as stated fails: no snapshot exists, the payload parses, there are
    two subscribers and Telegram and the disk work; the last update is no
    date, so the candidate is persisted and [formatDate] raises before the
    announcement: nothing is broadcast. *)
Lemma first_cycle_without_a_date_announces_nothing :
  data_file world0 = Missing /\
  subscribers world0 = [ann; bob] /\
  parse_newData undated_payload
  = Some (mkPriceData 100000 95000 (VStr "yesterday")) /\
  data_file (snd (sample_cycle (Replied undated_payload) world0))
  = Holds (Snapshot.make (Some 100000%float) (Some 95000%float)
             (VStr "yesterday")) /\
  outbox (snd (sample_cycle (Replied undated_payload) world0)) = [].
Proof. repeat split. Qed.

(** A price field that cannot be printed ends the cycle where it is read:
    nothing is saved and nothing is sent, with or without a snapshot. *)
Example unprintable_price_ends_the_cycle :
  parse_newData unprintable_payload = None /\
  sample_cycle (Replied unprintable_payload) world0 = (Returned tt, world0) /\
  sample_cycle (Replied unprintable_payload) world1 = (Returned tt, world1).
Proof. repeat split. Qed.

(** Beyond the safe integers the admin is recognised by the digits that
    [toString] prints: with ["1152921504606847000"] configured, chat [2^60]
    is the admin and its [/broadcast] reaches the subscribers. *)
Example large_admin_id_is_recognised :
  map recipient
    (outbox
       (snd (processUpdate "1152921504606847000" sample_up sample_up
               sample_rupiah sample_toISOString sample_Number_toString
               "2024-05-01T10:00:00.000Z"
               (sample_update (NumId 1152921504606846976) "/broadcast hello")
               world0)))
  = [NumId 7; NumId 8; NumId 1152921504606846976].
Proof. reflexivity. Qed.

(* ================================================================== *)
(** * Further instances *)

(** When the adjusted candidate equals the previous snapshot nothing is
    broadcast, and the snapshot file is written all the same. *)
Example equal_prices_are_saved_silently :
  sample_cycle (Replied sample_payload)
    (mkWorld (Holds [ann; bob])
       (Holds (Snapshot.make (Some 99000%float) (Some 96000%float) VNull)) [] [])
  = (Returned tt,
     mkWorld (Holds [ann; bob])
       (Holds (Snapshot.make (Some 99000%float) (Some 96000%float)
                 (VStr "2024-05-01T10:00:00Z")))
       [] [(DATA_FILE, true)]).
Proof. reflexivity. Qed.

(** Only a space ends the command token: after a tab the whole text is the
    command, and it is not [/broadcast]. *)
Example tab_does_not_end_the_command :
  outbox
    (snd (sample_process
            (sample_update (NumId 42) ("/broadcast" ++ utf8 [9] ++ "hello"))
            world0))
  = [mkDelivery (NumId 42) "Unknown command. Use /help for available commands."
       true].
Proof. reflexivity. Qed.

(* ================================================================== *)
(** * Instances of the further properties *)

Lemma repeated_payload_witness :
  exists w',
    sample_cycle (Replied sample_payload) world2 = (Returned tt, w') /\
    outbox w' = [] /\
    data_file w' = Holds adjusted_snapshot /\
    users_file w' = Holds [ann; bob].
Proof.
  exact (repeated_payload_is_silent sample_admin sample_up sample_up
           sample_rupiah sample_toISOString sample_payload sample_newData
           world2 eq_refl eq_refl eq_refl eq_refl).
Defined.

Lemma null_price_witness :
  sample_cycle (Replied sample_payload) world_null = (Returned tt, world_null).
Proof.
  exact (null_price_blocks_the_cycle sample_admin sample_up sample_up
           sample_rupiah sample_toISOString sample_payload sample_newData
           null_snapshot world_null eq_refl eq_refl eq_refl eq_refl).
Defined.

Lemma non_finite_price_witness :
  Snapshot.sellPrice
    (json_price_data
       (mkPriceData 100000 (parseFloat_string "n/a") (VStr "2024-05-01T10:00:00Z")))
  = None /\
  data_file (snd (sample_cycle (Replied unpriced_payload) world0))
  = Holds (json_price_data
             (mkPriceData 100000 (parseFloat_string "n/a")
                (VStr "2024-05-01T10:00:00Z"))) /\
  sample_cycle (Replied sample_payload)
    (snd (sample_cycle (Replied unpriced_payload) world0))
  = (Returned tt, snd (sample_cycle (Replied unpriced_payload) world0)).
Proof.
  exact (non_finite_price_silences_the_bot sample_admin sample_up sample_up
           sample_rupiah sample_toISOString unpriced_payload
           (mkPriceData 100000 (parseFloat_string "n/a")
              (VStr "2024-05-01T10:00:00Z"))
           world0 sample_payload sample_newData
           eq_refl eq_refl eq_refl eq_refl eq_refl eq_refl).
Defined.

Lemma restart_witness :
  (exists w',
     first_check sample_admin sample_up sample_up sample_rupiah
       sample_toISOString true (Replied sample_payload) world2
     = (Returned tt, w') /\
     outbox w' =
       attempts_from sample_up 0 [ann; bob]
         (price_list_message sample_rupiah 100000 95000 "2024-05-01") /\
     data_file w' = Holds sample_snapshot /\
     subscribers w' = [ann; bob]) /\
  first_check sample_admin sample_up sample_up sample_rupiah
    sample_toISOString false (Replied sample_payload) world2
  = sample_cycle (Replied sample_payload) world2.
Proof.
  exact (restart_announces_the_price_list sample_admin sample_up sample_up
           sample_rupiah sample_toISOString sample_payload sample_newData
           "2024-05-01T10:00:00.000Z" world2 eq_refl eq_refl).
Defined.

Lemma saved_data_witness :
  (exists s w',
     bind (saveData sample_up (mkPriceData 100000 nan VNull))
       (fun _ => loadData) world1 = (Returned (Some s), w') /\
     (exists n, Snapshot.buyPrice s = Some n /\ (n =? 100000)%float = true) /\
     Snapshot.sellPrice s = None) /\
  fst (bind (saveData sample_down sample_newData) (fun _ => loadData) world2)
  = Returned (Some adjusted_snapshot).
Proof.
  destruct (saved_data_reads_back sample_up (mkPriceData 100000 nan VNull) world1)
    as [Hup _].
  destruct (saved_data_reads_back sample_down sample_newData world2)
    as [_ Hdown].
  split.
  - destruct (Hup eq_refl) as (s & w' & Hrun & Hbuy & _ & _ & Hsell).
    exists s, w'. split; [exact Hrun |]. split; [apply Hbuy | apply Hsell];
      reflexivity.
  - rewrite (Hdown eq_refl). reflexivity.
Defined.

Lemma only_the_admin_witness :
  exists ds,
    outbox (snd (sample_process (Some (from_cat "/broadcast buy now")) world1))
    = ds /\
    Forall (fun d => recipient d = NumId 9) ds.
Proof.
  exact (only_the_admin_reaches_others sample_admin sample_up sample_up
           sample_rupiah sample_toISOString sample_Number_toString
           "2024-05-01T10:00:00.000Z"
           (from_cat "/broadcast buy now") world1 eq_refl).
Defined.

Lemma start_witness :
  exists w',
    sample_process (Some (from_cat "/start")) world1 = (Returned tt, w') /\
    subscribers w' = [ann; bob; cat] /\
    outbox w' =
      [mkDelivery (NumId 9) MESSAGES.WELCOME true;
       mkDelivery (NumId 9)
         (price_list_message sample_rupiah 100000 95000 "2024-05-01") true].
Proof.
  apply (start_subscribes_and_welcomes sample_admin sample_up sample_up
           sample_rupiah sample_toISOString sample_Number_toString
           "2024-05-01T10:00:00.000Z"
           (from_cat "/start") "/start" world1 eq_refl eq_refl).
  - simpl. intuition discriminate.
  - reflexivity.
  - intros s H. injection H as <-. discriminate.
Defined.

Lemma start_raises_witness :
  exists e w',
    sample_process (Some (from_cat "/start")) world_null = (Thrown e, w') /\
    outbox w' = [mkDelivery (NumId 9) MESSAGES.WELCOME true] /\
    ((forall k, sample_up k = true) -> subscribers w' = [ann; bob; cat]).
Proof.
  apply (start_raises_on_unprintable_snapshot sample_admin sample_up sample_up
           sample_rupiah sample_toISOString sample_Number_toString
           "2024-05-01T10:00:00.000Z"
           (from_cat "/start") "/start" null_snapshot world_null
           eq_refl eq_refl).
  - simpl. intuition discriminate.
  - reflexivity.
  - reflexivity.
Defined.

Lemma start_again_witness :
  sample_process (Some (from_ann "/start")) world1
  = (Returned tt,
     post (mkDelivery (NumId 7) MESSAGES.ALREADY_SUBSCRIBED true) world1).
Proof.
  apply (start_when_subscribed_only_replies sample_admin sample_up sample_up
           sample_rupiah sample_toISOString sample_Number_toString
           "2024-05-01T10:00:00.000Z"
           (from_ann "/start") "/start" world1 eq_refl eq_refl).
  simpl. now left.
Defined.

Lemma stop_witness :
  (exists w',
     sample_process (Some (from_ann "/stop")) world1 = (Returned tt, w') /\
     users_file w' = Holds [bob] /\
     ~ In (NumId 7) (identities w') /\
     outbox w' = [mkDelivery (NumId 7) MESSAGES.UNSUBSCRIBED true]) /\
  (exists w',
     sample_process (Some (from_cat "/stop")) world1 = (Returned tt, w') /\
     subscribers w' = [ann; bob] /\
     outbox w' = [mkDelivery (NumId 9) MESSAGES.NOT_SUBSCRIBED true]).
Proof.
  split.
  - apply (stop_unsubscribes sample_admin sample_up sample_up sample_rupiah
             sample_toISOString sample_Number_toString
             "2024-05-01T10:00:00.000Z"
             (from_ann "/stop") "/stop" world1 eq_refl eq_refl).
    + simpl. now left.
    + reflexivity.
  - apply (stop_unsubscribes sample_admin sample_up sample_up sample_rupiah
             sample_toISOString sample_Number_toString
             "2024-05-01T10:00:00.000Z"
             (from_cat "/stop") "/stop" world1 eq_refl eq_refl).
    simpl. intuition discriminate.
Defined.

Lemma replies_witness :
  sample_process (Some (from_cat "/help me")) world1
  = (Returned tt, post (mkDelivery (NumId 9) MESSAGES.HELP true) world1) /\
  sample_process (Some (from_cat "/price")) world1
  = (Returned tt,
     post (mkDelivery (NumId 9)
             "Unknown command. Use /help for available commands." true) world1) /\
  sample_process (Some (from_cat "hello")) world1
  = (Returned tt,
     post (mkDelivery (NumId 9) "Use /help for available commands." true) world1) /\
  sample_process (Some (mkMessage (StrId "42") (Some "hello") None)) world1
  = (Returned tt, world1).
Proof.
  destruct (replies_that_change_nothing sample_admin sample_up sample_up
              sample_rupiah sample_toISOString sample_Number_toString
              "2024-05-01T10:00:00.000Z"
              (from_cat "/help me") world1) as (Hhelp & _).
  destruct (replies_that_change_nothing sample_admin sample_up sample_up
              sample_rupiah sample_toISOString sample_Number_toString
              "2024-05-01T10:00:00.000Z"
              (from_cat "/price") world1) as (_ & Hunknown & _).
  destruct (replies_that_change_nothing sample_admin sample_up sample_up
              sample_rupiah sample_toISOString sample_Number_toString
              "2024-05-01T10:00:00.000Z"
              (from_cat "hello") world1) as (_ & _ & Hhint & _).
  destruct (replies_that_change_nothing sample_admin sample_up sample_up
              sample_rupiah sample_toISOString sample_Number_toString
              "2024-05-01T10:00:00.000Z"
              (mkMessage (StrId "42") (Some "hello") None) world1)
    as (_ & _ & Hquiet & _).
  split; [| split; [| split]].
  - exact (Hhelp eq_refl).
  - apply Hunknown; [reflexivity | discriminate ..].
  - exact (Hhint eq_refl).
  - exact (Hquiet eq_refl).
Defined.

Lemma message_returns_witness :
  fst (sample_process (Some (from_cat "/start")) world1) = Returned tt.
Proof.
  apply (message_returns_when_snapshot_prints sample_admin sample_up sample_up
           sample_rupiah sample_toISOString sample_Number_toString
           "2024-05-01T10:00:00.000Z" (Some (from_cat "/start")) world1).
  intros s H. injection H as <-. discriminate.
Defined.

Lemma add_then_remove_witness :
  fst (isUserSubscribed sample_up (NumId 9)
         (snd (addUser sample_up "2024-05-01T10:00:00.000Z" (NumId 9) "cat" world0)))
  = Returned true /\
  users_file
    (snd (removeUser sample_up (NumId 9)
            (snd (addUser sample_up "2024-05-01T10:00:00.000Z" (NumId 9) "cat"
                    world0))))
  = Holds [ann; bob] /\
  fst (isUserSubscribed sample_up (NumId 9)
         (snd (removeUser sample_up (NumId 9)
                 (snd (addUser sample_up "2024-05-01T10:00:00.000Z" (NumId 9)
                         "cat" world0)))))
  = Returned false.
Proof.
  apply (add_then_remove_restores_the_store sample_up
           "2024-05-01T10:00:00.000Z" (NumId 9) "cat" world0).
  - simpl. intuition discriminate.
  - reflexivity.
Defined.

Lemma next_broadcast_witness :
  exists attempts,
    outbox (snd (broadcastMessage sample_up sample_up "x"
                   (snd (sample_process (Some (from_cat "/start")) world1))))
    = (outbox (snd (sample_process (Some (from_cat "/start")) world1))
       ++ attempts)%list /\
    map recipient attempts = [NumId 7; NumId 8; NumId 9].
Proof.
  apply (new_subscriber_gets_the_next_broadcast sample_admin sample_up sample_up
           sample_rupiah sample_toISOString sample_Number_toString
           "2024-05-01T10:00:00.000Z"
           (from_cat "/start") "/start" "x" world1 eq_refl eq_refl).
  - simpl. intuition discriminate.
  - reflexivity.
  - intros s H. injection H as <-. discriminate.
Defined.

Lemma no_broadcast_witness :
  exists attempts,
    outbox (snd (broadcastMessage sample_up sample_up "x"
                   (snd (sample_process (Some (from_ann "/stop")) world1))))
    = (outbox (snd (sample_process (Some (from_ann "/stop")) world1))
       ++ attempts)%list /\
    map recipient attempts = [NumId 8] /\
    ~ In (NumId 7) (map recipient attempts).
Proof.
  apply (unsubscribed_gets_no_broadcast sample_admin sample_up sample_up
           sample_rupiah sample_toISOString sample_Number_toString
           "2024-05-01T10:00:00.000Z"
           (from_ann "/stop") "/stop" "x" world1 eq_refl eq_refl).
  - simpl. now left.
  - reflexivity.
Defined.

Lemma fetch_error_text_witness :
  exists w',
    sample_cycle (Failed "timeout of 5000ms exceeded") world1 = (Returned tt, w') /\
    outbox w' =
      [mkDelivery (StrId "42")
         ("⚠️ *Failed to fetch price data*" ++ nl
          ++ "Error: timeout of 5000ms exceeded") true].
Proof.
  exact (fetch_error_text_is_verbatim sample_admin sample_up sample_up
           sample_rupiah sample_toISOString "timeout of 5000ms exceeded" world1
           eq_refl).
Defined.

Lemma sample_rupiah_is_plain : forall n,
  no_dollar (sample_rupiah n) = true /\ without "{" (sample_rupiah n) = true.
Proof.
  intro n. unfold sample_rupiah.
  repeat match goal with
         | |- context [if ?c then _ else _] => destruct c
         end; split; reflexivity.
Defined.

Lemma cycle_texts_witness :
  price_list_message sample_rupiah 100000 95000 "2024-05-01"
  = "*Gold Savings Price List*" ++ nl ++ nl ++ "Buy: " ++ sample_rupiah 100000
    ++ nl ++ "Sell: " ++ sample_rupiah 95000 ++ nl ++ "Last Update: 2024-05-01" /\
  buy_dropped_message sample_rupiah 100000 99000
  = "⬇️ *Buy price dropped* From " ++ sample_rupiah 100000 ++ " to *"
    ++ sample_rupiah 99000 ++ "*".
Proof.
  destruct (cycle_texts_fill_the_templates sample_rupiah sample_rupiah_is_plain)
    as (Hlist & Hbuy & _).
  split; [apply Hlist; reflexivity | apply Hbuy].
Defined.
